(** * aLCD: HD44780 16x2 character LCD driver over GPIO (4-bit mode)

    A shallow embedding of [alcd.c] (4-bit variant) with the constants of
    [alcd.h].  The driver's three globals form the state; every hardware
    access, every busy-wait and every store to a global is recorded, in
    program order, in an event trace, so that ordering properties of the
    protocol can be stated on the trace. *)

From Stdlib Require Import ZArith List Bool Lia.
Import ListNotations.
Open Scope Z_scope.

(** ** Machine integers *)

(** Conversion to [uint8_t]: the value modulo 2^8. *)
Definition u8 (v : Z) : Z := v mod 256.

Definition is_u8 (v : Z) : Prop := 0 <= v < 256.

(** ** Constants of alcd.h

    The header among the sources is the one of the 8-bit tree; it defines
    the 4-bit function-set and handshake bytes as well, and every constant
    that alcd.c uses. *)

Definition __alcd_writeCmd : bool := false.
Definition __alcd_writeData : bool := true.

Definition __alcd_max_x : Z := 16.
Definition __alcd_max_y : Z := 2.

Definition __alcd_delay_CMD : Z := 50.
Definition __alcd_delay_modeSet : Z := 5000.
Definition __alcd_delay_powerON : Z := 50000.

Definition __alcd_Mode_4bit_2line_5x8 : Z := 0x28.
Definition __alcd_Mode_4bit_Step1 : Z := 0x33.
Definition __alcd_Mode_4bit_Step2 : Z := 0x32.

Definition __alcd_Display_Clear : Z := 0x01.
Definition __alcd_Display_OFF : Z := 0x08.
Definition __alcd_Display_ON : Z := 0x0C.
Definition __alcd_Cursor_OFF : Z := 0x0C.
Definition __alcd_Entry_Inc : Z := 0x06.

Definition __alcd_Line1_Start : Z := 0x80.
Definition __alcd_Line2_Start : Z := 0xC0.
Definition __alcd_CGRAM_Start : Z := 0x40.

(** ** Bit macros *)

(** Modelled from the spec: [bitCheck] is a macro of aKaReZa.h, which is not
    among the sources.  The transport "drives the data lines" with the bits
    of the byte, so [bitCheck reg bit] is the value (0 or 1) of bit [bit] of
    [reg]. *)
Definition bitCheck (reg bit : Z) : Z := Z.land (Z.shiftr reg bit) 1.

(** Modelled from the spec: [bitChange] is a macro of aKaReZa.h, which is not
    among the sources.  The display-mode controller "sets bit 0 = blink,
    bit 1 = cursor, bit 2 = display, each independently": [bitChange reg bit
    value] sets bit [bit] of the 8-bit [reg] when [value] is true and clears
    it otherwise. *)
Definition bitChange (reg bit : Z) (value : bool) : Z :=
  if value then u8 (Z.lor reg (Z.shiftl 1 bit))
  else u8 (Z.land reg (Z.lnot (Z.shiftl 1 bit))).

(** ** Hardware lines, driver globals and events *)

Inductive Pin : Type :=
| __alcd_RS_Pin
| __alcd_EN_Pin
| __alcd_DB4_Pin
| __alcd_DB5_Pin
| __alcd_DB6_Pin
| __alcd_DB7_Pin
| __alcd_BL_Pin.

(** [GPIO_PinState]: [GPIO_PIN_RESET] is 0, anything else drives the line
    high. *)
Definition GPIO_PIN_RESET : Z := 0.
Definition GPIO_PIN_SET : Z := 1.

Inductive Global : Type :=
| Var_initStatus
| Var_x_position
| Var_y_position.

Inductive Event : Type :=
| GpioWrite (pin : Pin) (high : bool)   (* HAL_GPIO_WritePin *)
| DelayUs (us : Z)                      (* delay_us *)
| Store (g : Global) (v : Z).           (* assignment to a driver global *)

(** The global variables of alcd.c. *)
Record Globals : Type := mkGlobals {
  __alcd_initStatus : bool;
  __alcd_x_position : Z;
  __alcd_y_position : Z
}.

(** Values at program start. *)
Definition startup : Globals :=
  {| __alcd_initStatus := false; __alcd_x_position := 0; __alcd_y_position := 0 |}.

(** ** The driver monad: global state plus an append-only event trace *)

Definition M (A : Type) : Type := Globals -> A * Globals * list Event.

Definition ret {A} (a : A) : M A := fun g => (a, g, []).

Definition bind {A B} (m : M A) (k : A -> M B) : M B :=
  fun g =>
    let '(a, g1, t1) := m g in
    let '(b, g2, t2) := k a g1 in
    (b, g2, t1 ++ t2).

Declare Scope drv_scope.
Delimit Scope drv_scope with drv.
Notation "x <- c1 ;; c2" := (bind c1 (fun x => c2))
  (at level 61, c1 at next level, right associativity) : drv_scope.
Notation "c1 ;; c2" := (bind c1 (fun _ => c2))
  (at level 61, right associativity) : drv_scope.
Open Scope drv_scope.

Definition globals_after {A} (m : M A) (g : Globals) : Globals := snd (fst (m g)).
Definition trace_of {A} (m : M A) (g : Globals) : list Event := snd (m g).

(** Primitive actions. *)

Definition HAL_GPIO_WritePin (pin : Pin) (PinState : Z) : M unit :=
  fun g => (tt, g, [GpioWrite pin (negb (PinState =? GPIO_PIN_RESET))]).

Definition __alcd_delay (_delayValue : Z) : M unit :=
  fun g => (tt, g, [DelayUs _delayValue]).

Definition read_initStatus : M bool :=
  fun g => (__alcd_initStatus g, g, []).
Definition read_x_position : M Z :=
  fun g => (__alcd_x_position g, g, []).
Definition read_y_position : M Z :=
  fun g => (__alcd_y_position g, g, []).

Definition write_initStatus (b : bool) : M unit :=
  fun g => (tt,
            {| __alcd_initStatus := b;
               __alcd_x_position := __alcd_x_position g;
               __alcd_y_position := __alcd_y_position g |},
            [Store Var_initStatus (Z.b2z b)]).
Definition write_x_position (v : Z) : M unit :=
  fun g => (tt,
            {| __alcd_initStatus := __alcd_initStatus g;
               __alcd_x_position := u8 v;
               __alcd_y_position := __alcd_y_position g |},
            [Store Var_x_position (u8 v)]).
Definition write_y_position (v : Z) : M unit :=
  fun g => (tt,
            {| __alcd_initStatus := __alcd_initStatus g;
               __alcd_x_position := __alcd_x_position g;
               __alcd_y_position := u8 v |},
            [Store Var_y_position (u8 v)]).

(** ** alcd.c *)

(** [alcd_write]: one byte on the 4-bit bus. *)
Definition alcd_write (_data : Z) (_alcd_cmdData : bool) : M unit :=
  let _data := u8 _data in
  HAL_GPIO_WritePin __alcd_RS_Pin (Z.b2z _alcd_cmdData) ;;
  (* high nibble *)
  HAL_GPIO_WritePin __alcd_DB4_Pin (bitCheck _data 4) ;;
  HAL_GPIO_WritePin __alcd_DB5_Pin (bitCheck _data 5) ;;
  HAL_GPIO_WritePin __alcd_DB6_Pin (bitCheck _data 6) ;;
  HAL_GPIO_WritePin __alcd_DB7_Pin (bitCheck _data 7) ;;
  HAL_GPIO_WritePin __alcd_EN_Pin GPIO_PIN_SET ;;
  st <- read_initStatus ;;
  (if Bool.eqb st false
   then __alcd_delay __alcd_delay_modeSet
   else __alcd_delay __alcd_delay_CMD) ;;
  HAL_GPIO_WritePin __alcd_EN_Pin GPIO_PIN_RESET ;;
  (* low nibble *)
  HAL_GPIO_WritePin __alcd_DB4_Pin (bitCheck _data 0) ;;
  HAL_GPIO_WritePin __alcd_DB5_Pin (bitCheck _data 1) ;;
  HAL_GPIO_WritePin __alcd_DB6_Pin (bitCheck _data 2) ;;
  HAL_GPIO_WritePin __alcd_DB7_Pin (bitCheck _data 3) ;;
  HAL_GPIO_WritePin __alcd_EN_Pin GPIO_PIN_SET ;;
  st <- read_initStatus ;;
  (if Bool.eqb st false
   then __alcd_delay __alcd_delay_modeSet
   else __alcd_delay __alcd_delay_CMD) ;;
  HAL_GPIO_WritePin __alcd_EN_Pin GPIO_PIN_RESET.

(** [alcd_gotoxy]: the parameters are [uint8_t]. *)
Definition alcd_gotoxy (_alcd_x _alcd_y : Z) : M unit :=
  let _alcd_x := u8 _alcd_x in
  let _alcd_y := u8 _alcd_y in
  (if (_alcd_x >=? __alcd_max_x) || (_alcd_y >=? __alcd_max_y)
   then write_x_position 0 ;; write_y_position 0
   else write_x_position _alcd_x ;; write_y_position _alcd_y) ;;
  y <- read_y_position ;;
  let _address := if y =? 0 then __alcd_Line1_Start else __alcd_Line2_Start in
  x <- read_x_position ;;
  let _address := u8 (_address + x) in
  alcd_write _address __alcd_writeCmd.

(** The loop of [alcd_customChar]: [n] iterations are left, [_CG_Add] is the
    running CGRAM address and [_alcd_CGRAMdata] the bytes from the running
    pointer on.  A read past the end of the list is outside the model (the
    caller passes 8 bytes); it yields 0. *)
Fixpoint customChar_loop (n : nat) (_CG_Add : Z) (_alcd_CGRAMdata : list Z) : M unit :=
  match n with
  | O => ret tt
  | S n' =>
      alcd_write _CG_Add __alcd_writeCmd ;;
      alcd_write (hd 0 _alcd_CGRAMdata) __alcd_writeData ;;
      customChar_loop n' (u8 (_CG_Add + 1)) (tl _alcd_CGRAMdata)
  end.

Definition alcd_customChar (_alcd_CGRAMadd : Z) (_alcd_CGRAMdata : list Z) : M unit :=
  let _alcd_CGRAMadd := u8 _alcd_CGRAMadd in
  let _CG_Add := u8 (__alcd_CGRAM_Start + Z.shiftl _alcd_CGRAMadd 3) in
  customChar_loop 8 _CG_Add _alcd_CGRAMdata ;;
  x <- read_x_position ;;
  y <- read_y_position ;;
  alcd_gotoxy x y.

(** [alcd_backLight] exists only where the board defines a backlight line. *)
Definition alcd_backLight (_alcd_BL : bool) : M unit :=
  HAL_GPIO_WritePin __alcd_BL_Pin (Z.b2z _alcd_BL).

Definition alcd_display (_alcd_Display _alcd_Cursor _alcd_Blink : bool) : M unit :=
  let _cursorState := __alcd_Display_OFF in
  let _cursorState := bitChange _cursorState 0 _alcd_Blink in
  let _cursorState := bitChange _cursorState 1 _alcd_Cursor in
  let _cursorState := bitChange _cursorState 2 _alcd_Display in
  alcd_write _cursorState __alcd_writeCmd.

Definition alcd_clear : M unit :=
  alcd_write __alcd_Display_Clear __alcd_writeCmd ;;
  write_x_position 0 ;;
  write_y_position 0 ;;
  __alcd_delay __alcd_delay_modeSet.

Definition alcd_putc (_char : Z) : M unit :=
  alcd_write _char __alcd_writeData ;;
  x <- read_x_position ;;
  write_x_position (x + 1) ;;
  x <- read_x_position ;;
  if x >=? __alcd_max_x
  then
    write_x_position 0 ;;
    y <- read_y_position ;;
    write_y_position (y + 1) ;;
    x <- read_x_position ;;
    y <- read_y_position ;;
    alcd_gotoxy x y
  else ret tt.

(** [alcd_puts]: [_str] is the sequence of [char]s from the pointer on; the
    traversal stops at the first ['\0'].  A C string always holds one; a list
    without it is read up to its end. *)
Fixpoint alcd_puts (_str : list Z) : M unit :=
  match _str with
  | [] => ret tt
  | c :: rest =>
      if negb (u8 c =? 0)
      then alcd_putc c ;; alcd_puts rest
      else ret tt
  end.

(** [alcd_init].  [BL_defined] tells whether [__alcd_BL_GPIO_Port] is defined
    in the board configuration (a header that is not among the sources). *)
Definition alcd_init (BL_defined : bool) : M unit :=
  write_initStatus false ;;
  __alcd_delay __alcd_delay_powerON ;;
  (if BL_defined then HAL_GPIO_WritePin __alcd_BL_Pin GPIO_PIN_SET else ret tt) ;;
  alcd_write __alcd_Mode_4bit_Step1 __alcd_writeCmd ;;
  __alcd_delay __alcd_delay_modeSet ;;
  alcd_write __alcd_Mode_4bit_Step2 __alcd_writeCmd ;;
  __alcd_delay __alcd_delay_modeSet ;;
  alcd_write __alcd_Mode_4bit_2line_5x8 __alcd_writeCmd ;;
  __alcd_delay __alcd_delay_modeSet ;;
  alcd_write __alcd_Display_ON __alcd_writeCmd ;;
  __alcd_delay __alcd_delay_modeSet ;;
  alcd_write __alcd_Cursor_OFF __alcd_writeCmd ;;
  __alcd_delay __alcd_delay_modeSet ;;
  alcd_write __alcd_Entry_Inc __alcd_writeCmd ;;
  __alcd_delay __alcd_delay_modeSet ;;
  alcd_write __alcd_Display_Clear __alcd_writeCmd ;;
  __alcd_delay __alcd_delay_modeSet ;;
  write_initStatus true.

(** ** Public calls and their sequencing *)

Inductive Call : Type :=
| Call_init
| Call_gotoxy (_alcd_x _alcd_y : Z)
| Call_clear
| Call_putc (_char : Z)
| Call_puts (_str : list Z)
| Call_customChar (_alcd_CGRAMadd : Z) (_alcd_CGRAMdata : list Z)
| Call_display (_alcd_Display _alcd_Cursor _alcd_Blink : bool).

Section Board.

(** Whether the board configuration defines a backlight line. *)
Variable BL_defined : bool.

Definition do_call (c : Call) : M unit :=
  match c with
  | Call_init => alcd_init BL_defined
  | Call_gotoxy x y => alcd_gotoxy x y
  | Call_clear => alcd_clear
  | Call_putc ch => alcd_putc ch
  | Call_puts s => alcd_puts s
  | Call_customChar a d => alcd_customChar a d
  | Call_display d c b => alcd_display d c b
  end.

(** A program: the calls one after the other. *)
Fixpoint do_calls (cs : list Call) : M unit :=
  match cs with
  | [] => ret tt
  | c :: cs' => do_call c ;; do_calls cs'
  end.

(** The globals as they are when each call of [cs] returns. *)
Fixpoint globals_after_each (cs : list Call) (g : Globals) : list Globals :=
  match cs with
  | [] => []
  | c :: cs' =>
      let g' := globals_after (do_call c) g in
      g' :: globals_after_each cs' g'
  end.

End Board.

(** ** Observations on states and traces *)

(** The cursor lies on the 16x2 grid. *)
Definition cursor_in_range (g : Globals) : Prop :=
  0 <= __alcd_x_position g < __alcd_max_x /\
  0 <= __alcd_y_position g < __alcd_max_y.

Definition cursor (g : Globals) : Z * Z :=
  (__alcd_x_position g, __alcd_y_position g).

(** The delay [alcd_write] inserts, as a function of the init flag. *)
Definition pulse_delay (initStatus : bool) : Z :=
  if Bool.eqb initStatus false then __alcd_delay_modeSet else __alcd_delay_CMD.

(** The four data lines carrying the low four bits of [n]. *)
Definition nibble_lines (n : Z) : list Event :=
  [GpioWrite __alcd_DB4_Pin (Z.testbit n 0);
   GpioWrite __alcd_DB5_Pin (Z.testbit n 1);
   GpioWrite __alcd_DB6_Pin (Z.testbit n 2);
   GpioWrite __alcd_DB7_Pin (Z.testbit n 3)].

(** EN raised, kept high for [d] microseconds, lowered. *)
Definition en_pulse (d : Z) : list Event :=
  [GpioWrite __alcd_EN_Pin true; DelayUs d; GpioWrite __alcd_EN_Pin false].

(** The bus activity of one byte in 4-bit mode: RS, then the high nibble and
    a pulse, then the low nibble and a pulse. *)
Definition frame (d : Z) (rs : bool) (b : Z) : list Event :=
  [GpioWrite __alcd_RS_Pin rs]
    ++ nibble_lines (b / 16) ++ en_pulse d
    ++ nibble_lines (b mod 16) ++ en_pulse d.

(** What the display controller latches.  In 4-bit mode it samples RS and
    DB4..DB7 at each EN pulse and takes two successive nibbles, the high one
    first, as one byte. *)
Definition nibble_value (b0 b1 b2 b3 : bool) : Z :=
  Z.b2z b0 + 2 * Z.b2z b1 + 4 * Z.b2z b2 + 8 * Z.b2z b3.

Definition frame_at (t : list Event) : option (bool * Z) :=
  match t with
  | GpioWrite __alcd_RS_Pin rs
    :: GpioWrite __alcd_DB4_Pin h0 :: GpioWrite __alcd_DB5_Pin h1
    :: GpioWrite __alcd_DB6_Pin h2 :: GpioWrite __alcd_DB7_Pin h3
    :: GpioWrite __alcd_EN_Pin true :: DelayUs _ :: GpioWrite __alcd_EN_Pin false
    :: GpioWrite __alcd_DB4_Pin l0 :: GpioWrite __alcd_DB5_Pin l1
    :: GpioWrite __alcd_DB6_Pin l2 :: GpioWrite __alcd_DB7_Pin l3
    :: GpioWrite __alcd_EN_Pin true :: DelayUs _ :: GpioWrite __alcd_EN_Pin false
    :: _ =>
      Some (rs, 16 * nibble_value h0 h1 h2 h3 + nibble_value l0 l1 l2 l3)
  | _ => None
  end.

(** The bytes received by the display, with their RS level (false: command,
    true: data), in order. *)
Fixpoint transfers (t : list Event) : list (bool * Z) :=
  match t with
  | [] => []
  | e :: rest =>
      match frame_at (e :: rest) with
      | Some x => x :: transfers rest
      | None => transfers rest
      end
  end.

(** Number of writes of level [high] to line [pin]. *)
Definition count_writes (pin_is : Pin -> bool) (high : bool) (t : list Event) : nat :=
  length (filter (fun e =>
                    match e with
                    | GpioWrite p h => pin_is p && Bool.eqb h high
                    | _ => false
                    end) t).

Definition is_EN (p : Pin) : bool :=
  match p with __alcd_EN_Pin => true | _ => false end.

(** EN is kept high for the delay chosen by the init flag: every write of
    "high" to EN is immediately followed by the delay that the flag, as last
    stored, selects, and then by the write of "low". *)
Fixpoint pulses_held (initStatus : bool) (t : list Event) : bool :=
  match t with
  | [] => true
  | Store Var_initStatus v :: rest => pulses_held (negb (v =? 0)) rest
  | GpioWrite __alcd_EN_Pin true :: rest =>
      match rest with
      | DelayUs d :: GpioWrite __alcd_EN_Pin false :: _ =>
          (d =? pulse_delay initStatus) && pulses_held initStatus rest
      | _ => false
      end
  | _ :: rest => pulses_held initStatus rest
  end.

(** After EN went low: does a delay of [d] microseconds come before EN is
    raised again? *)
Fixpoint delay_before_next_pulse (d : Z) (t : list Event) : bool :=
  match t with
  | [] => false
  | DelayUs d' :: rest => (d' =? d) || delay_before_next_pulse d rest
  | GpioWrite __alcd_EN_Pin true :: _ => false
  | _ :: rest => delay_before_next_pulse d rest
  end.

(** Every completed pulse (EN raised, then lowered) is followed, before the
    next one starts, by the delay that the init flag selects. *)
Fixpoint delay_follows_pulses (initStatus : bool) (t : list Event) : bool :=
  match t with
  | [] => true
  | Store Var_initStatus v :: rest => delay_follows_pulses (negb (v =? 0)) rest
  | GpioWrite __alcd_EN_Pin false :: rest =>
      delay_before_next_pulse (pulse_delay initStatus) rest
      && delay_follows_pulses initStatus rest
  | _ :: rest => delay_follows_pulses initStatus rest
  end.

(** A computation is transparent to [pulses_held] when its trace passes the
    check from the flag it starts with and hands over the flag it ends with. *)
Definition well_timed {A} (m : M A) : Prop :=
  forall g rest,
    pulses_held (__alcd_initStatus g) (trace_of m g ++ rest)
    = pulses_held (__alcd_initStatus (globals_after m g)) rest.

(** ** Auxiliary functions used in the statements *)

(** The position [alcd_gotoxy] settles on. *)
Definition clamp (x y : Z) : Z * Z :=
  if (x >=? __alcd_max_x) || (y >=? __alcd_max_y) then (0, 0) else (x, y).

(** The trace of the loop of [alcd_customChar]. *)
Fixpoint loop_trace (d : Z) (n : nat) (_CG_Add : Z) (_alcd_CGRAMdata : list Z)
  : list Event :=
  match n with
  | O => []
  | S n' =>
      frame d __alcd_writeCmd (u8 _CG_Add)
        ++ frame d __alcd_writeData (u8 (hd 0 _alcd_CGRAMdata))
        ++ loop_trace d n' (u8 (_CG_Add + 1)) (tl _alcd_CGRAMdata)
  end.

(** The cursor after one character, as a function of the cursor before. *)
Definition advance (p : Z * Z) : Z * Z :=
  let '(x, y) := p in
  if x <? 15 then (x + 1, y) else if y =? 0 then (0, 1) else (0, 0).

(** The sixteen transfers that program a glyph: for each row [i] of the
    pattern, the CGRAM address [0x40 + slot * 8 + i] as a command and then
    the pattern byte as data. *)
Definition glyph_transfers (slot : Z) (pattern : list Z) : list (bool * Z) :=
  flat_map
    (fun i => [(__alcd_writeCmd, 0x40 + slot * 8 + Z.of_nat i);
               (__alcd_writeData, nth i pattern 0)])
    (seq 0 8).

(** Stores to the two position variables. *)
Definition is_position_store (e : Event) : bool :=
  match e with
  | Store Var_x_position _ | Store Var_y_position _ => true
  | _ => false
  end.

(** ** Further observations *)

(** A string without an embedded ['\0']. *)
Definition no_NUL (s : list Z) : Prop := Forall (fun c => u8 c <> 0) s.

(** The data bytes, and the command bytes, the display receives. *)
Definition data_bytes (t : list Event) : list Z :=
  map snd (filter (fun x => fst x) (transfers t)).

Definition command_bytes (t : list Event) : list Z :=
  map snd (filter (fun x => negb (fst x)) (transfers t)).

(** Time spent in [delay_us], in microseconds. *)
Fixpoint total_delay (t : list Event) : Z :=
  match t with
  | [] => 0
  | DelayUs d :: rest => d + total_delay rest
  | _ :: rest => total_delay rest
  end.

(** The 32 cells of the display in reading order: cell [k] is column
    [k mod 16] of row [k / 16]. *)
Definition cell (k : Z) : Z * Z := (k mod 16, k / 16).

Definition cell_index (g : Globals) : Z :=
  16 * __alcd_y_position g + __alcd_x_position g.

Definition is_init_call (c : Call) : bool :=
  match c with Call_init => true | _ => false end.

Definition is_BL (p : Pin) : bool :=
  match p with __alcd_BL_Pin => true | _ => false end.

(** The first value of [_CG_Add] in [alcd_customChar]. *)
Definition CG_base (_alcd_CGRAMadd : Z) : Z :=
  u8 (__alcd_CGRAM_Start + Z.shiftl (u8 _alcd_CGRAMadd) 3).

(** Eight address/data pairs from address [a] on. *)
Definition glyph_transfers_at (a : Z) (pattern : list Z) : list (bool * Z) :=
  flat_map
    (fun i => [(__alcd_writeCmd, a + Z.of_nat i); (__alcd_writeData, nth i pattern 0)])
    (seq 0 8).

(** What a string makes the display receive, from cursor [p] on: each
    character as data, and after a character written in column 15 the address
    of the line that follows. *)
Fixpoint string_transfers (p : Z * Z) (s : list Z) : list (bool * Z) :=
  match s with
  | [] => []
  | c :: rest =>
      (__alcd_writeData, u8 c)
        :: (if fst p <? 15 then []
            else [(__alcd_writeCmd, if snd p =? 0 then 0xC0 else 0x80)])
        ++ string_transfers (advance p) rest
  end.

(** A computation whose trace is made of whole frames: what the display
    receives from it does not depend on what comes next, and it raises and
    lowers EN twice per byte. *)
Definition in_sync {A} (m : M A) : Prop :=
  forall g,
    (forall rest,
        transfers (trace_of m g ++ rest)
        = transfers (trace_of m g) ++ transfers rest)
    /\ count_writes is_EN true (trace_of m g)
       = (2 * length (transfers (trace_of m g)))%nat
    /\ count_writes is_EN false (trace_of m g)
       = (2 * length (transfers (trace_of m g)))%nat.

(** A computation that waits only inside enable pulses and leaves the init
    flag alone. *)
Definition paced {A} (m : M A) : Prop :=
  forall g,
    __alcd_initStatus (globals_after m g) = __alcd_initStatus g
    /\ total_delay (trace_of m g)
       = 2 * pulse_delay (__alcd_initStatus g)
         * Z.of_nat (length (transfers (trace_of m g))).

(** ** Basic facts *)

Arguments u8 : simpl never.

Lemma u8_small (v : Z) : is_u8 v -> u8 v = v.
Proof. unfold is_u8, u8. intros H. apply Z.mod_small. exact H. Qed.

Lemma u8_range (v : Z) : is_u8 (u8 v).
Proof. unfold is_u8, u8. apply Z.mod_pos_bound. lia. Qed.

Lemma u8_idem (v : Z) : u8 (u8 v) = u8 v.
Proof. apply u8_small, u8_range. Qed.

Lemma bitCheck_testbit (reg bit : Z) :
  0 <= bit ->
  negb (bitCheck reg bit =? GPIO_PIN_RESET) = Z.testbit reg bit.
Proof.
  intros Hb. unfold bitCheck, GPIO_PIN_RESET.
  change 1 with (Z.ones 1). rewrite Z.land_ones by lia.
  change (2 ^ 1) with 2. rewrite <- Z.bit0_mod.
  rewrite Z.shiftr_spec by lia. rewrite Z.add_0_l.
  destruct (Z.testbit reg bit); reflexivity.
Qed.

Lemma high_nibble_bit (b k : Z) :
  0 <= k -> Z.testbit (b / 16) k = Z.testbit b (k + 4).
Proof.
  intros Hk. change 16 with (2 ^ 4). apply Z.div_pow2_bits; lia.
Qed.

Lemma low_nibble_bit (b k : Z) :
  k < 4 -> Z.testbit (b mod 16) k = Z.testbit b k.
Proof.
  intros Hk. change 16 with (2 ^ 4). apply Z.mod_pow2_bits_low. exact Hk.
Qed.

(** One call of [alcd_write] leaves the globals alone and produces one frame,
    timed by the init flag. *)
Lemma alcd_write_run (_data : Z) (rs : bool) (g : Globals) :
  alcd_write _data rs g
  = (tt, g, frame (pulse_delay (__alcd_initStatus g)) rs (u8 _data)).
Proof.
  unfold alcd_write, frame, nibble_lines, en_pulse, pulse_delay.
  unfold bind, HAL_GPIO_WritePin, read_initStatus, __alcd_delay.
  rewrite !bitCheck_testbit by lia.
  rewrite !high_nibble_bit by lia. rewrite !low_nibble_bit by lia.
  replace (negb (Z.b2z rs =? GPIO_PIN_RESET)) with rs by (destruct rs; reflexivity).
  destruct g as [[|] x y]; reflexivity.
Qed.

(** ** The receiver's view of a frame *)

Lemma nibble_value_bits (n : Z) :
  0 <= n < 16 ->
  nibble_value (Z.testbit n 0) (Z.testbit n 1) (Z.testbit n 2) (Z.testbit n 3) = n.
Proof.
  intros H. rewrite <- (Z2Nat.id n) by lia.
  assert (Z.to_nat n < 16)%nat as B by lia.
  revert B. generalize (Z.to_nat n) as k. intros k B.
  do 16 (destruct k as [| k]; [reflexivity | ]).
  lia.
Qed.

Lemma transfers_frame (d : Z) (rs : bool) (b : Z) (t : list Event) :
  is_u8 b -> transfers (frame d rs b ++ t) = (rs, b) :: transfers t.
Proof.
  unfold is_u8. intros Hb.
  unfold frame, nibble_lines, en_pulse.
  cbn [app transfers frame_at].
  rewrite !nibble_value_bits.
  - rewrite (Z.div_mod b 16) at 3 by lia. reflexivity.
  - apply Z.mod_pos_bound; lia.
  - split; [apply Z.div_pos; lia | apply Z.div_lt_upper_bound; lia].
Qed.

Lemma transfers_store (v : Global) (x : Z) (t : list Event) :
  transfers (Store v x :: t) = transfers t.
Proof. reflexivity. Qed.

Lemma transfers_delay (d : Z) (t : list Event) :
  transfers (DelayUs d :: t) = transfers t.
Proof. reflexivity. Qed.

Lemma transfers_backlight (h : bool) (t : list Event) :
  transfers (GpioWrite __alcd_BL_Pin h :: t) = transfers t.
Proof. reflexivity. Qed.

Lemma transfers_frame_end (d : Z) (rs : bool) (b : Z) :
  is_u8 b -> transfers (frame d rs b) = [(rs, b)].
Proof.
  intros Hb. rewrite <- (app_nil_r (frame d rs b)).
  rewrite transfers_frame by exact Hb. reflexivity.
Qed.

(** ** Running the driver functions *)

Lemma bind_alcd_write {B} (_data : Z) (rs : bool) (k : unit -> M B) (g : Globals) :
  bind (alcd_write _data rs) k g
  = let '(r, g2, t2) := k tt g in
    (r, g2, frame (pulse_delay (__alcd_initStatus g)) rs (u8 _data) ++ t2).
Proof. unfold bind. rewrite alcd_write_run. reflexivity. Qed.

Ltac exec :=
  repeat first
    [ rewrite bind_alcd_write
    | rewrite alcd_write_run
    | progress cbn [bind ret HAL_GPIO_WritePin __alcd_delay
                    read_initStatus read_x_position read_y_position
                    write_initStatus write_x_position write_y_position
                    __alcd_initStatus __alcd_x_position __alcd_y_position
                    globals_after trace_of fst snd] ].

Lemma alcd_gotoxy_run (_alcd_x _alcd_y : Z) (g : Globals) :
  let '(x, y) := clamp (u8 _alcd_x) (u8 _alcd_y) in
  alcd_gotoxy _alcd_x _alcd_y g
  = (tt,
     {| __alcd_initStatus := __alcd_initStatus g;
        __alcd_x_position := x;
        __alcd_y_position := y |},
     [Store Var_x_position x; Store Var_y_position y]
       ++ frame (pulse_delay (__alcd_initStatus g)) __alcd_writeCmd
            (u8 ((if y =? 0 then __alcd_Line1_Start else __alcd_Line2_Start) + x))).
Proof.
  unfold clamp, alcd_gotoxy.
  destruct ((u8 _alcd_x >=? __alcd_max_x) || (u8 _alcd_y >=? __alcd_max_y));
    exec; rewrite ?u8_idem; reflexivity.
Qed.

Lemma alcd_putc_run (_char : Z) (g : Globals) :
  let x1 := u8 (__alcd_x_position g + 1) in
  let y1 := u8 (__alcd_y_position g + 1) in
  let w := frame (pulse_delay (__alcd_initStatus g)) __alcd_writeData (u8 _char) in
  alcd_putc _char g
  = if x1 >=? __alcd_max_x
    then
      let g1 := {| __alcd_initStatus := __alcd_initStatus g;
                   __alcd_x_position := 0;
                   __alcd_y_position := y1 |} in
      (tt, globals_after (alcd_gotoxy 0 y1) g1,
       w ++ [Store Var_x_position x1; Store Var_x_position 0; Store Var_y_position y1]
         ++ trace_of (alcd_gotoxy 0 y1) g1)
    else
      (tt,
       {| __alcd_initStatus := __alcd_initStatus g;
          __alcd_x_position := x1;
          __alcd_y_position := __alcd_y_position g |},
       w ++ [Store Var_x_position x1]).
Proof.
  intros x1 y1 w. unfold alcd_putc. exec. fold x1.
  destruct (x1 >=? __alcd_max_x).
  - exec. change (u8 0) with 0. fold y1.
    unfold globals_after, trace_of.
    destruct (alcd_gotoxy 0 y1 _) as [[[] g2] t2]. reflexivity.
  - exec. rewrite app_nil_r. reflexivity.
Qed.

Lemma alcd_clear_run (g : Globals) :
  alcd_clear g
  = (tt,
     {| __alcd_initStatus := __alcd_initStatus g;
        __alcd_x_position := 0;
        __alcd_y_position := 0 |},
     frame (pulse_delay (__alcd_initStatus g)) __alcd_writeCmd __alcd_Display_Clear
       ++ [Store Var_x_position 0; Store Var_y_position 0;
           DelayUs __alcd_delay_modeSet]).
Proof. unfold alcd_clear. exec. reflexivity. Qed.

Lemma alcd_display_run (_alcd_Display _alcd_Cursor _alcd_Blink : bool) (g : Globals) :
  alcd_display _alcd_Display _alcd_Cursor _alcd_Blink g
  = (tt, g,
     frame (pulse_delay (__alcd_initStatus g)) __alcd_writeCmd
       (8 + 4 * Z.b2z _alcd_Display + 2 * Z.b2z _alcd_Cursor + Z.b2z _alcd_Blink)).
Proof.
  unfold alcd_display. exec.
  destruct _alcd_Display, _alcd_Cursor, _alcd_Blink; reflexivity.
Qed.

Lemma alcd_init_run (BL_defined : bool) (g : Globals) :
  alcd_init BL_defined g
  = (tt,
     {| __alcd_initStatus := true;
        __alcd_x_position := __alcd_x_position g;
        __alcd_y_position := __alcd_y_position g |},
     [Store Var_initStatus 0; DelayUs 50000]
       ++ (if BL_defined then [GpioWrite __alcd_BL_Pin true] else [])
       ++ frame 5000 false 0x33 ++ [DelayUs 5000]
       ++ frame 5000 false 0x32 ++ [DelayUs 5000]
       ++ frame 5000 false 0x28 ++ [DelayUs 5000]
       ++ frame 5000 false 0x0C ++ [DelayUs 5000]
       ++ frame 5000 false 0x0C ++ [DelayUs 5000]
       ++ frame 5000 false 0x06 ++ [DelayUs 5000]
       ++ frame 5000 false 0x01 ++ [DelayUs 5000]
       ++ [Store Var_initStatus 1]).
Proof.
  unfold alcd_init. destruct BL_defined; exec; reflexivity.
Qed.

Lemma customChar_loop_run (n : nat) :
  forall (_CG_Add : Z) (_alcd_CGRAMdata : list Z) (g : Globals),
    customChar_loop n _CG_Add _alcd_CGRAMdata g
    = (tt, g, loop_trace (pulse_delay (__alcd_initStatus g)) n _CG_Add _alcd_CGRAMdata).
Proof.
  induction n as [| n IH]; intros a data g.
  - reflexivity.
  - cbn [customChar_loop loop_trace]. exec. rewrite IH. reflexivity.
Qed.

Lemma alcd_customChar_run (_alcd_CGRAMadd : Z) (_alcd_CGRAMdata : list Z) (g : Globals) :
  let d := pulse_delay (__alcd_initStatus g) in
  let '(x, y) := clamp (u8 (__alcd_x_position g)) (u8 (__alcd_y_position g)) in
  alcd_customChar _alcd_CGRAMadd _alcd_CGRAMdata g
  = (tt,
     {| __alcd_initStatus := __alcd_initStatus g;
        __alcd_x_position := x;
        __alcd_y_position := y |},
     loop_trace d 8 (u8 (__alcd_CGRAM_Start + Z.shiftl (u8 _alcd_CGRAMadd) 3))
       _alcd_CGRAMdata
       ++ [Store Var_x_position x; Store Var_y_position y]
       ++ frame d __alcd_writeCmd
            (u8 ((if y =? 0 then __alcd_Line1_Start else __alcd_Line2_Start) + x))).
Proof.
  intros d.
  pose proof (alcd_gotoxy_run (__alcd_x_position g) (__alcd_y_position g) g) as G.
  destruct (clamp _ _) as [x y].
  unfold alcd_customChar. unfold bind at 1. rewrite customChar_loop_run.
  exec. rewrite G. reflexivity.
Qed.

(** ** The cursor stays on the grid *)

Lemma clamp_in_range (x y : Z) :
  0 <= x -> 0 <= y ->
  0 <= fst (clamp x y) < __alcd_max_x /\ 0 <= snd (clamp x y) < __alcd_max_y.
Proof.
  intros Hx Hy. unfold clamp, __alcd_max_x, __alcd_max_y.
  destruct (x >=? 16) eqn:Ex; destruct (y >=? 2) eqn:Ey; cbn [orb fst snd]; lia.
Qed.

Lemma alcd_gotoxy_in_range (_alcd_x _alcd_y : Z) (g : Globals) :
  cursor_in_range (globals_after (alcd_gotoxy _alcd_x _alcd_y) g).
Proof.
  pose proof (alcd_gotoxy_run _alcd_x _alcd_y g) as G.
  pose proof (clamp_in_range (u8 _alcd_x) (u8 _alcd_y)) as C.
  destruct (clamp _ _) as [x y]. unfold globals_after. rewrite G.
  apply C; apply u8_range.
Qed.

Lemma alcd_putc_in_range (_char : Z) (g : Globals) :
  cursor_in_range g -> cursor_in_range (globals_after (alcd_putc _char) g).
Proof.
  intros [Hx Hy]. unfold globals_after at 1. rewrite alcd_putc_run.
  destruct (u8 (__alcd_x_position g + 1) >=? __alcd_max_x) eqn:E.
  - apply alcd_gotoxy_in_range.
  - unfold cursor_in_range, __alcd_max_x in *. cbn [fst snd __alcd_x_position __alcd_y_position].
    pose proof (u8_range (__alcd_x_position g + 1)) as R. unfold is_u8 in R.
    split; [lia | exact Hy].
Qed.

Lemma alcd_puts_in_range (_str : list Z) :
  forall g, cursor_in_range g -> cursor_in_range (globals_after (alcd_puts _str) g).
Proof.
  induction _str as [| c rest IH]; intros g H.
  - exact H.
  - cbn [alcd_puts]. destruct (negb (u8 c =? 0)).
    + pose proof (IH _ (alcd_putc_in_range c g H)) as H'.
      unfold globals_after, bind in *.
      destruct (alcd_putc c g) as [[u g1] t1]. cbn [fst snd] in H'.
      destruct (alcd_puts rest g1) as [[v g2] t2]. exact H'.
    + exact H.
Qed.

Lemma do_call_in_range (BL_defined : bool) (c : Call) (g : Globals) :
  cursor_in_range g -> cursor_in_range (globals_after (do_call BL_defined c) g).
Proof.
  intros H. destruct c; cbn [do_call].
  - unfold globals_after. rewrite alcd_init_run. exact H.
  - apply alcd_gotoxy_in_range.
  - unfold globals_after. rewrite alcd_clear_run.
    unfold cursor_in_range, __alcd_max_x, __alcd_max_y. cbn. lia.
  - apply alcd_putc_in_range, H.
  - apply alcd_puts_in_range, H.
  - pose proof (alcd_customChar_run _alcd_CGRAMadd _alcd_CGRAMdata g) as R.
    pose proof (clamp_in_range (u8 (__alcd_x_position g)) (u8 (__alcd_y_position g))) as C.
    cbv zeta in R. destruct (clamp _ _) as [x y].
    unfold globals_after. rewrite R. apply C; apply u8_range.
  - unfold globals_after. rewrite alcd_display_run. exact H.
Qed.

Lemma globals_after_bind {A B} (m : M A) (k : A -> M B) (g : Globals) :
  globals_after (bind m k) g
  = globals_after (k (fst (fst (m g)))) (globals_after m g).
Proof.
  unfold globals_after, bind.
  destruct (m g) as [[a g1] t1]. cbn [fst snd].
  destruct (k a g1) as [[b g2] t2]. reflexivity.
Qed.

Lemma trace_of_bind {A B} (m : M A) (k : A -> M B) (g : Globals) :
  trace_of (bind m k) g
  = trace_of m g ++ trace_of (k (fst (fst (m g)))) (globals_after m g).
Proof.
  unfold trace_of, globals_after, bind.
  destruct (m g) as [[a g1] t1]. cbn [fst snd].
  destruct (k a g1) as [[b g2] t2]. reflexivity.
Qed.

Lemma do_calls_in_range (BL_defined : bool) (cs : list Call) :
  forall g, cursor_in_range g ->
            Forall cursor_in_range (globals_after_each BL_defined cs g)
            /\ cursor_in_range (globals_after (do_calls BL_defined cs) g).
Proof.
  induction cs as [| c cs IH]; intros g H.
  - split; [constructor | exact H].
  - cbn [globals_after_each do_calls].
    pose proof (do_call_in_range BL_defined c g H) as H1.
    destruct (IH _ H1) as [F L].
    split.
    + constructor; assumption.
    + rewrite globals_after_bind. exact L.
Qed.

(** ** Timing of the enable pulses *)

Create HintDb timing.

Lemma well_timed_ret {A} (a : A) : well_timed (ret a).
Proof. intros g rest. reflexivity. Qed.

Lemma well_timed_bind {A B} (m : M A) (k : A -> M B) :
  well_timed m -> (forall a, well_timed (k a)) -> well_timed (bind m k).
Proof.
  intros Hm Hk g rest.
  rewrite trace_of_bind, globals_after_bind, <- app_assoc.
  rewrite Hm. apply Hk.
Qed.

Lemma well_timed_delay (d : Z) : well_timed (__alcd_delay d).
Proof. intros g rest. reflexivity. Qed.

Lemma well_timed_backlight (v : Z) : well_timed (HAL_GPIO_WritePin __alcd_BL_Pin v).
Proof. intros g rest. reflexivity. Qed.

Lemma well_timed_read_x : well_timed read_x_position.
Proof. intros g rest. reflexivity. Qed.

Lemma well_timed_read_y : well_timed read_y_position.
Proof. intros g rest. reflexivity. Qed.

Lemma well_timed_write_x (v : Z) : well_timed (write_x_position v).
Proof. intros g rest. reflexivity. Qed.

Lemma well_timed_write_y (v : Z) : well_timed (write_y_position v).
Proof. intros g rest. reflexivity. Qed.

Lemma well_timed_write_initStatus (b : bool) : well_timed (write_initStatus b).
Proof. intros g rest. destruct b; reflexivity. Qed.

Lemma pulses_held_frame (i rs : bool) (b : Z) (rest : list Event) :
  pulses_held i (frame (pulse_delay i) rs b ++ rest) = pulses_held i rest.
Proof.
  unfold frame, nibble_lines, en_pulse.
  cbn [app pulses_held]. rewrite Z.eqb_refl. reflexivity.
Qed.

Lemma well_timed_alcd_write (_data : Z) (rs : bool) : well_timed (alcd_write _data rs).
Proof.
  intros g rest. unfold trace_of, globals_after. rewrite alcd_write_run.
  cbn [fst snd]. apply pulses_held_frame.
Qed.

#[local] Hint Resolve well_timed_ret well_timed_delay well_timed_backlight
  well_timed_read_x well_timed_read_y well_timed_write_x well_timed_write_y
  well_timed_write_initStatus well_timed_alcd_write : timing.

Ltac timing :=
  repeat first
    [ progress cbv zeta
    | solve [ auto with timing ]
    | match goal with |- well_timed (if ?c then _ else _) => destruct c end
    | apply well_timed_bind; [ | intros ? ] ].

Lemma well_timed_alcd_gotoxy (_alcd_x _alcd_y : Z) : well_timed (alcd_gotoxy _alcd_x _alcd_y).
Proof. unfold alcd_gotoxy. timing. Qed.

#[local] Hint Resolve well_timed_alcd_gotoxy : timing.

Lemma well_timed_alcd_putc (_char : Z) : well_timed (alcd_putc _char).
Proof. unfold alcd_putc. timing. Qed.

#[local] Hint Resolve well_timed_alcd_putc : timing.

Lemma well_timed_alcd_puts (_str : list Z) : well_timed (alcd_puts _str).
Proof.
  induction _str as [| c rest IH]; cbn [alcd_puts]; timing.
Qed.

Lemma well_timed_customChar_loop (n : nat) :
  forall a data, well_timed (customChar_loop n a data).
Proof.
  induction n as [| n IH]; intros a data; cbn [customChar_loop]; timing.
Qed.

#[local] Hint Resolve well_timed_customChar_loop : timing.

Lemma well_timed_alcd_customChar (a : Z) (data : list Z) : well_timed (alcd_customChar a data).
Proof.
  unfold alcd_customChar. timing.
Qed.

Lemma well_timed_alcd_display (d c b : bool) : well_timed (alcd_display d c b).
Proof. unfold alcd_display. timing. Qed.

Lemma well_timed_alcd_clear : well_timed alcd_clear.
Proof. unfold alcd_clear. timing. Qed.

Lemma well_timed_alcd_init (BL_defined : bool) : well_timed (alcd_init BL_defined).
Proof. unfold alcd_init. timing. Qed.

Lemma well_timed_do_call (BL_defined : bool) (c : Call) : well_timed (do_call BL_defined c).
Proof.
  destruct c; cbn [do_call];
    auto using well_timed_alcd_init, well_timed_alcd_gotoxy, well_timed_alcd_clear,
      well_timed_alcd_putc, well_timed_alcd_puts, well_timed_alcd_customChar,
      well_timed_alcd_display.
Qed.

Lemma well_timed_do_calls (BL_defined : bool) (cs : list Call) :
  well_timed (do_calls BL_defined cs).
Proof.
  induction cs as [| c cs IH]; cbn [do_calls].
  - apply well_timed_ret.
  - apply well_timed_bind; [apply well_timed_do_call | intros _; exact IH].
Qed.

(** ** Character output: how the cursor advances *)

Lemma alcd_putc_cursor (_char : Z) (g : Globals) :
  cursor_in_range g ->
  cursor (globals_after (alcd_putc _char) g) = advance (cursor g).
Proof.
  unfold cursor_in_range, __alcd_max_x, __alcd_max_y. intros [Hx Hy].
  unfold globals_after at 1. rewrite alcd_putc_run.
  unfold cursor at 2, advance.
  assert (u8 (__alcd_x_position g + 1) = __alcd_x_position g + 1) as Ex
      by (apply u8_small; unfold is_u8; lia).
  assert (u8 (__alcd_y_position g + 1) = __alcd_y_position g + 1) as Ey
      by (apply u8_small; unfold is_u8; lia).
  rewrite Ex, Ey. unfold __alcd_max_x.
  destruct (Z.ltb_spec (__alcd_x_position g) 15) as [L | L].
  - destruct (Z.geb_spec (__alcd_x_position g + 1) 16) as [G | G]; [lia | ].
    reflexivity.
  - destruct (Z.geb_spec (__alcd_x_position g + 1) 16) as [G | G]; [ | lia].
    cbn [fst snd].
    pose proof (alcd_gotoxy_run 0 (__alcd_y_position g + 1)
                  {| __alcd_initStatus := __alcd_initStatus g;
                     __alcd_x_position := 0;
                     __alcd_y_position := __alcd_y_position g + 1 |}) as R.
    rewrite Ey in R. change (u8 0) with 0 in R.
    unfold clamp, __alcd_max_x, __alcd_max_y in R. cbn [orb Z.geb Z.compare] in R.
    unfold globals_after.
    destruct (Z.eqb_spec (__alcd_y_position g) 0) as [Y0 | Y0].
    + rewrite Y0 in *. change (0 + 1) with 1 in *. cbn in R.
      rewrite R. reflexivity.
    + assert (__alcd_y_position g = 1) as Y1 by lia.
      rewrite Y1 in *. change (1 + 1) with 2 in *. cbn in R.
      rewrite R. reflexivity.
Qed.

Lemma putc_sequence_cursor (BL_defined : bool) (cs : list Z) :
  forall g,
    cursor_in_range g ->
    cursor (globals_after (do_calls BL_defined (map Call_putc cs)) g)
    = Nat.iter (length cs) advance (cursor g).
Proof.
  induction cs as [| c cs IH]; intros g H.
  - reflexivity.
  - cbn [map do_calls length]. rewrite globals_after_bind. cbn [do_call].
    rewrite IH by (apply alcd_putc_in_range, H).
    rewrite alcd_putc_cursor by exact H.
    rewrite Nat.iter_succ_r. reflexivity.
Qed.

(** * The driver's properties *)

(** C1.  The cursor invariant.  Whatever public calls ([alcd_init],
    [alcd_gotoxy], [alcd_clear], [alcd_putc], [alcd_puts], [alcd_customChar],
    [alcd_display]) a program makes, with whatever arguments, starting from
    the globals as they are at program start (column 0, row 0), the stored
    column is below 16 and the stored row below 2 each time a call returns,
    and so at the end of the program. *)
Theorem cursor_invariant (BL_defined : bool) (cs : list Call) :
  Forall cursor_in_range (globals_after_each BL_defined cs startup)
  /\ cursor_in_range (globals_after (do_calls BL_defined cs) startup).
Proof.
  apply do_calls_in_range.
  unfold cursor_in_range, startup, __alcd_max_x, __alcd_max_y. cbn. lia.
Qed.

(** C2.  [alcd_gotoxy] on [uint8_t] arguments.  With [col < 16] and
    [row < 2] it stores [(col, row)] and sends, as a command, the byte
    [(row == 0 ? 0x80 : 0xC0) + col]; with [col >= 16] or [row >= 2] it stores
    [(0, 0)] and the command byte sent is the one of the stored position,
    [0x80].  In both cases the two stores come first and the byte is the only
    one sent. *)
Theorem alcd_gotoxy_spec (col row : Z) (g : Globals) :
  is_u8 col -> is_u8 row ->
  let d := pulse_delay (__alcd_initStatus g) in
  let address := (if row =? 0 then 0x80 else 0xC0) + col in
  (col < 16 /\ row < 2 ->
   globals_after (alcd_gotoxy col row) g
   = {| __alcd_initStatus := __alcd_initStatus g;
        __alcd_x_position := col;
        __alcd_y_position := row |}
   /\ trace_of (alcd_gotoxy col row) g
      = [Store Var_x_position col; Store Var_y_position row]
          ++ frame d __alcd_writeCmd address
   /\ transfers (trace_of (alcd_gotoxy col row) g) = [(__alcd_writeCmd, address)])
  /\ (col >= 16 \/ row >= 2 ->
      globals_after (alcd_gotoxy col row) g
      = {| __alcd_initStatus := __alcd_initStatus g;
           __alcd_x_position := 0;
           __alcd_y_position := 0 |}
      /\ trace_of (alcd_gotoxy col row) g
         = [Store Var_x_position 0; Store Var_y_position 0]
             ++ frame d __alcd_writeCmd 0x80
      /\ transfers (trace_of (alcd_gotoxy col row) g) = [(__alcd_writeCmd, 0x80)]).
Proof.
  intros Hc Hr d address.
  pose proof (alcd_gotoxy_run col row g) as R.
  rewrite (u8_small col Hc), (u8_small row Hr) in R.
  unfold clamp, __alcd_max_x, __alcd_max_y in R.
  unfold is_u8 in Hc, Hr. unfold globals_after, trace_of.
  split.
  - intros [Lc Lr].
    destruct (Z.geb_spec col 16) as [G | _]; [lia | ].
    destruct (Z.geb_spec row 2) as [G | _]; [lia | ].
    cbn [orb] in R. rewrite R. cbn [fst snd].
    assert (is_u8 address) as Ha
        by (unfold is_u8, address; destruct (row =? 0); lia).
    unfold __alcd_Line1_Start, __alcd_Line2_Start. fold address.
    rewrite (u8_small address Ha). fold d.
    repeat split.
    cbn [app]. rewrite !transfers_store. apply transfers_frame_end, Ha.
  - intros Out.
    assert ((col >=? 16) || (row >=? 2) = true) as E.
    { destruct (Z.geb_spec col 16); destruct (Z.geb_spec row 2); cbn [orb];
        try reflexivity; lia. }
    rewrite E in R. rewrite R. cbn [fst snd].
    repeat split.
Qed.

Lemma alcd_gotoxy_spec_witness :
  globals_after (alcd_gotoxy 5 1) startup
  = {| __alcd_initStatus := false; __alcd_x_position := 5; __alcd_y_position := 1 |}
  /\ transfers (trace_of (alcd_gotoxy 5 1) startup) = [(false, 0xC5)]
  /\ globals_after (alcd_gotoxy 16 1) startup = startup
  /\ transfers (trace_of (alcd_gotoxy 16 1) startup) = [(false, 0x80)].
Proof.
  assert (is_u8 5) as H5 by (unfold is_u8; lia).
  assert (is_u8 1) as H1 by (unfold is_u8; lia).
  assert (is_u8 16) as H16 by (unfold is_u8; lia).
  destruct (alcd_gotoxy_spec 5 1 startup H5 H1) as [In _].
  destruct (alcd_gotoxy_spec 16 1 startup H16 H1) as [_ Out].
  destruct In as (A & _ & B); [lia | ].
  destruct Out as (C & _ & D); [lia | ].
  repeat split; assumption.
Defined.

(** C3.  [alcd_putc] from a cursor on the grid.  The character is sent as
    data and the column advances by one.  When the column reaches 16 it is
    reset to 0, the row is incremented and [alcd_gotoxy] is called with the
    new position, so that from row 0 the cursor lands on (0,1) and from row 1
    the clamp of [alcd_gotoxy] puts it on (0,0).  Hence 16 characters written
    from (0,0) leave the cursor at (0,1), a 17th stays on row 1, and a
    character written at (15,1) leaves the cursor at (0,0). *)
Theorem alcd_putc_spec (c : Z) (g : Globals) :
  is_u8 c -> cursor_in_range g ->
  let x := __alcd_x_position g in
  let y := __alcd_y_position g in
  let w := frame (pulse_delay (__alcd_initStatus g)) __alcd_writeData c in
  (x < 15 ->
   globals_after (alcd_putc c) g
   = {| __alcd_initStatus := __alcd_initStatus g;
        __alcd_x_position := x + 1;
        __alcd_y_position := y |}
   /\ trace_of (alcd_putc c) g = w ++ [Store Var_x_position (x + 1)]
   /\ transfers (trace_of (alcd_putc c) g) = [(__alcd_writeData, c)])
  /\ (x = 15 ->
      let g1 := {| __alcd_initStatus := __alcd_initStatus g;
                   __alcd_x_position := 0;
                   __alcd_y_position := y + 1 |} in
      globals_after (alcd_putc c) g = globals_after (alcd_gotoxy 0 (y + 1)) g1
      /\ trace_of (alcd_putc c) g
         = w ++ [Store Var_x_position 16; Store Var_x_position 0;
                 Store Var_y_position (y + 1)]
             ++ trace_of (alcd_gotoxy 0 (y + 1)) g1
      /\ transfers (trace_of (alcd_putc c) g)
         = [(__alcd_writeData, c); (__alcd_writeCmd, if y =? 0 then 0xC0 else 0x80)]
      /\ cursor (globals_after (alcd_putc c) g) = (if y =? 0 then (0, 1) else (0, 0)))
  /\ (forall BL_defined cs,
         x = 0 -> y = 0 -> length cs = 16%nat ->
         cursor (globals_after (do_calls BL_defined (map Call_putc cs)) g) = (0, 1))
  /\ (forall BL_defined cs,
         x = 0 -> y = 0 -> length cs = 17%nat ->
         cursor (globals_after (do_calls BL_defined (map Call_putc cs)) g) = (1, 1))
  /\ (x = 15 -> y = 1 -> cursor (globals_after (alcd_putc c) g) = (0, 0)).
Proof.
  intros Hc Hg x y w.
  pose proof (alcd_putc_cursor c g Hg) as Cur. unfold cursor at 2 in Cur.
  fold x y in Cur. unfold advance in Cur.
  pose proof (alcd_putc_run c g) as R. cbv zeta in R.
  rewrite (u8_small c Hc) in R. fold x y w in R.
  destruct Hg as [Hx Hy]. fold x in Hx. fold y in Hy.
  unfold __alcd_max_x, __alcd_max_y in *.
  assert (u8 (x + 1) = x + 1) as Ex by (apply u8_small; unfold is_u8; lia).
  assert (u8 (y + 1) = y + 1) as Ey by (apply u8_small; unfold is_u8; lia).
  rewrite Ex, Ey in R.
  split; [ | split; [ | split; [ | split]]].
  - intros L.
    destruct (Z.geb_spec (x + 1) 16) as [G | _]; [lia | ].
    unfold globals_after, trace_of. rewrite R. cbn [fst snd].
    repeat split.
    unfold w. rewrite transfers_frame by exact Hc. reflexivity.
  - intros E.
    destruct (Z.geb_spec (x + 1) 16) as [_ | G]; [ | lia].
    destruct (Z.ltb_spec x 15) as [L | _]; [lia | ].
    unfold globals_after at 1, trace_of at 1 3. rewrite R. rewrite E.
    cbn [fst snd]. repeat split; [ | exact Cur].
    unfold w. rewrite transfers_frame by exact Hc.
    cbn [app]. rewrite !transfers_store.
    pose proof (alcd_gotoxy_run 0 (y + 1)
                  {| __alcd_initStatus := __alcd_initStatus g;
                     __alcd_x_position := 0;
                     __alcd_y_position := y + 1 |}) as G0.
    rewrite Ey in G0. change (u8 0) with 0 in G0.
    unfold clamp, __alcd_max_x, __alcd_max_y in G0. cbn [orb Z.geb Z.compare] in G0.
    unfold trace_of.
    destruct (Z.eqb_spec y 0) as [Y0 | Y0].
    + rewrite Y0 in *. change (0 + 1) with 1 in *. cbn in G0.
      rewrite G0. reflexivity.
    + assert (y = 1) as Y1 by lia.
      rewrite Y1 in *. change (1 + 1) with 2 in *. cbn in G0.
      rewrite G0. reflexivity.
  - intros bl cs X0 Y0 Len.
    rewrite putc_sequence_cursor by (split; assumption).
    unfold cursor. fold x y. rewrite X0, Y0, Len. reflexivity.
  - intros bl cs X0 Y0 Len.
    rewrite putc_sequence_cursor by (split; assumption).
    unfold cursor. fold x y. rewrite X0, Y0, Len. reflexivity.
  - intros X15 Y1. rewrite Cur, X15, Y1. reflexivity.
Qed.

Lemma alcd_putc_spec_witness :
  cursor (globals_after (alcd_putc 65)
            {| __alcd_initStatus := true;
               __alcd_x_position := 15;
               __alcd_y_position := 1 |}) = (0, 0)
  /\ cursor (globals_after
               (do_calls false (map Call_putc [72; 101; 108; 108; 111; 44; 32; 119;
                                               111; 114; 108; 100; 33; 32; 58; 41]))
               startup) = (0, 1).
Proof.
  assert (is_u8 65) as H65 by (unfold is_u8; lia).
  split.
  - refine (proj2 (proj2 (proj2 (proj2
              (alcd_putc_spec 65
                 {| __alcd_initStatus := true;
                    __alcd_x_position := 15;
                    __alcd_y_position := 1 |} H65 _)))) eq_refl eq_refl).
    unfold cursor_in_range, __alcd_max_x, __alcd_max_y. cbn. lia.
  - refine (proj1 (proj2 (proj2 (alcd_putc_spec 65 startup H65 _)))
              false [72; 101; 108; 108; 111; 44; 32; 119;
                     111; 114; 108; 100; 33; 32; 58; 41]
              eq_refl eq_refl eq_refl).
    unfold cursor_in_range, __alcd_max_x, __alcd_max_y. cbn. lia.
Defined.

(** C4.  [alcd_clear], from every state: the byte 0x01 is sent as a command,
    then column and row are reset to 0, then the driver waits the 5000
    microseconds of the mode-set delay, in this order; the cursor is left at
    (0,0). *)
Theorem alcd_clear_spec (g : Globals) :
  trace_of alcd_clear g
  = frame (pulse_delay (__alcd_initStatus g)) __alcd_writeCmd 0x01
      ++ [Store Var_x_position 0; Store Var_y_position 0; DelayUs 5000]
  /\ transfers (trace_of alcd_clear g) = [(__alcd_writeCmd, 0x01)]
  /\ globals_after alcd_clear g
     = {| __alcd_initStatus := __alcd_initStatus g;
          __alcd_x_position := 0;
          __alcd_y_position := 0 |}.
Proof.
  unfold trace_of, globals_after. rewrite alcd_clear_run. cbn [fst snd].
  repeat split.
Qed.

(** C5.  [alcd_init].  It first clears the init flag and waits the 50000
    microseconds of the power-on delay before any transfer (the backlight
    line, where the board has one, is raised in between); it then sends, as
    commands and in this order, 0x33, 0x32, 0x28, 0x0C, 0x0C, 0x06 and 0x01,
    each held with the mode-set timing and followed by the 5000 microseconds
    of the mode-set delay; the init flag is set after the last delay and is
    the last thing done. *)
Theorem alcd_init_spec (BL_defined : bool) (g : Globals) :
  trace_of (alcd_init BL_defined) g
  = [Store Var_initStatus 0; DelayUs 50000]
      ++ (if BL_defined then [GpioWrite __alcd_BL_Pin true] else [])
      ++ frame 5000 __alcd_writeCmd 0x33 ++ [DelayUs 5000]
      ++ frame 5000 __alcd_writeCmd 0x32 ++ [DelayUs 5000]
      ++ frame 5000 __alcd_writeCmd 0x28 ++ [DelayUs 5000]
      ++ frame 5000 __alcd_writeCmd 0x0C ++ [DelayUs 5000]
      ++ frame 5000 __alcd_writeCmd 0x0C ++ [DelayUs 5000]
      ++ frame 5000 __alcd_writeCmd 0x06 ++ [DelayUs 5000]
      ++ frame 5000 __alcd_writeCmd 0x01 ++ [DelayUs 5000]
      ++ [Store Var_initStatus 1]
  /\ transfers (trace_of (alcd_init BL_defined) g)
     = [(__alcd_writeCmd, 0x33); (__alcd_writeCmd, 0x32); (__alcd_writeCmd, 0x28);
        (__alcd_writeCmd, 0x0C); (__alcd_writeCmd, 0x0C); (__alcd_writeCmd, 0x06);
        (__alcd_writeCmd, 0x01)]
  /\ __alcd_initStatus (globals_after (alcd_init BL_defined) g) = true.
Proof.
  unfold trace_of, globals_after. rewrite alcd_init_run. cbn [fst snd].
  repeat split. destruct BL_defined; reflexivity.
Qed.

(** C6, as stated, fails: no delay follows an enable pulse.  In
    [alcd_write] the delay lies between the raising and the lowering of EN;
    after EN is lowered the data lines of the next nibble are driven, or the
    function returns.  One data byte sent before initialisation, and one sent
    after it, already show it. *)
Lemma delay_not_after_pulse :
  delay_follows_pulses (__alcd_initStatus startup)
    (trace_of (alcd_write 0x41 __alcd_writeData) startup) = false
  /\ delay_follows_pulses true
       (trace_of (alcd_write 0x41 __alcd_writeData)
          {| __alcd_initStatus := true;
             __alcd_x_position := 0;
             __alcd_y_position := 0 |}) = false.
Proof. split; reflexivity. Qed.

(** C6, amended.  The delay is the time EN is kept high: in every program of
    public calls, from every state, each raising of EN is immediately
    followed by a delay and then by the lowering of EN, and the delay is the
    5000 microseconds of the mode-set delay while the init flag is false and
    the 50 microseconds of the command delay once it is true.  The choice
    does not look at the RS mode: a command and a data byte are timed
    alike. *)
Theorem pulse_timing (BL_defined : bool) (cs : list Call) (g : Globals) :
  pulses_held (__alcd_initStatus g) (trace_of (do_calls BL_defined cs) g) = true
  /\ (forall _data rs,
         trace_of (alcd_write _data rs) g
         = frame (pulse_delay (__alcd_initStatus g)) rs (u8 _data))
  /\ pulse_delay false = 5000
  /\ pulse_delay true = 50.
Proof.
  split; [ | split; [ | split; reflexivity]].
  - pose proof (well_timed_do_calls BL_defined cs g []) as H.
    rewrite app_nil_r in H. exact H.
  - intros b rs. unfold trace_of. rewrite alcd_write_run. reflexivity.
Qed.

(** C7.  One call of [alcd_write] on a byte [b]: RS is driven first, to the
    mode; then bits 4 to 7 of [b] are put on DB4 to DB7 and EN is raised and
    lowered; then bits 0 to 3 of [b] are put on DB4 to DB7 and EN is raised
    and lowered again.  There are exactly two pulses, the high nibble goes
    first, and the display receives [b] with the given mode. *)
Theorem alcd_write_spec (b : Z) (rs : bool) (g : Globals) :
  is_u8 b ->
  let d := pulse_delay (__alcd_initStatus g) in
  let t := trace_of (alcd_write b rs) g in
  t = [GpioWrite __alcd_RS_Pin rs;
       GpioWrite __alcd_DB4_Pin (Z.testbit b 4);
       GpioWrite __alcd_DB5_Pin (Z.testbit b 5);
       GpioWrite __alcd_DB6_Pin (Z.testbit b 6);
       GpioWrite __alcd_DB7_Pin (Z.testbit b 7);
       GpioWrite __alcd_EN_Pin true; DelayUs d; GpioWrite __alcd_EN_Pin false;
       GpioWrite __alcd_DB4_Pin (Z.testbit b 0);
       GpioWrite __alcd_DB5_Pin (Z.testbit b 1);
       GpioWrite __alcd_DB6_Pin (Z.testbit b 2);
       GpioWrite __alcd_DB7_Pin (Z.testbit b 3);
       GpioWrite __alcd_EN_Pin true; DelayUs d; GpioWrite __alcd_EN_Pin false]
  /\ count_writes is_EN true t = 2%nat
  /\ count_writes is_EN false t = 2%nat
  /\ transfers t = [(rs, b)]
  /\ globals_after (alcd_write b rs) g = g.
Proof.
  intros Hb d t. unfold t, trace_of, globals_after.
  rewrite alcd_write_run. rewrite (u8_small b Hb). cbn [fst snd]. fold d.
  split; [ | split; [ | split; [ | split]]].
  - unfold frame, nibble_lines, en_pulse.
    rewrite !high_nibble_bit by lia. rewrite !low_nibble_bit by lia.
    reflexivity.
  - reflexivity.
  - reflexivity.
  - apply transfers_frame_end, Hb.
  - reflexivity.
Qed.

Lemma alcd_write_spec_witness :
  transfers (trace_of (alcd_write 0xA5 __alcd_writeData) startup)
  = [(__alcd_writeData, 0xA5)]
  /\ count_writes is_EN true (trace_of (alcd_write 0xA5 __alcd_writeData) startup)
     = 2%nat.
Proof.
  assert (is_u8 0xA5) as H by (unfold is_u8; lia).
  destruct (alcd_write_spec 0xA5 __alcd_writeData startup H) as (_ & P & _ & T & _).
  split; assumption.
Defined.

(** ** Custom glyphs *)

Ltac u8_drop :=
  repeat match goal with
         | |- context [u8 ?v] => rewrite (u8_small v) by (unfold is_u8 in *; lia)
         end.

Lemma transfers_loop_trace_8 (d a p0 p1 p2 p3 p4 p5 p6 p7 : Z) (rest : list Event) :
  0 <= a -> a + 7 < 256 ->
  is_u8 p0 -> is_u8 p1 -> is_u8 p2 -> is_u8 p3 ->
  is_u8 p4 -> is_u8 p5 -> is_u8 p6 -> is_u8 p7 ->
  transfers (loop_trace d 8 a [p0; p1; p2; p3; p4; p5; p6; p7] ++ rest)
  = [(false, a); (true, p0); (false, a + 1); (true, p1);
     (false, a + 2); (true, p2); (false, a + 3); (true, p3);
     (false, a + 4); (true, p4); (false, a + 5); (true, p5);
     (false, a + 6); (true, p6); (false, a + 7); (true, p7)]
      ++ transfers rest.
Proof.
  intros A0 A7 H0 H1 H2 H3 H4 H5 H6 H7.
  cbn [loop_trace hd tl]. u8_drop.
  unfold __alcd_writeCmd, __alcd_writeData.
  rewrite app_nil_r. rewrite <- !app_assoc.
  rewrite !transfers_frame by (assumption || (unfold is_u8; lia)).
  cbn [app]. repeat (f_equal; try lia).
Qed.

(** C8, as stated, fails: the transfers are seventeen, not sixteen, and the
    enable pulses thirty-four, not thirty-two.  After the eight address/data
    pairs, the closing [alcd_gotoxy] sends the DDRAM address of the cursor as
    one more command. *)
Lemma customChar_not_16_transfers :
  let t := trace_of (alcd_customChar 3 [0x04; 0x0E; 0x0E; 0x0E; 0x1F; 0x00; 0x04; 0x00])
             startup in
  length (transfers t) <> 16%nat
  /\ count_writes is_EN true t <> (2 * 16)%nat
  /\ transfers t <> glyph_transfers 3 [0x04; 0x0E; 0x0E; 0x0E; 0x1F; 0x00; 0x04; 0x00].
Proof.
  repeat split; vm_compute; intros H; discriminate H.
Qed.

Lemma count_EN_frame (d : Z) (rs : bool) (b : Z) (t : list Event) :
  count_writes is_EN true (frame d rs b ++ t) = S (S (count_writes is_EN true t)).
Proof. reflexivity. Qed.

Lemma count_EN_loop_trace (d : Z) (n : nat) :
  forall a data t,
    count_writes is_EN true (loop_trace d n a data ++ t)
    = (4 * n + count_writes is_EN true t)%nat.
Proof.
  induction n as [| n IH]; intros a data t.
  - reflexivity.
  - cbn [loop_trace]. rewrite <- !app_assoc.
    rewrite !count_EN_frame, IH. lia.
Qed.

(** C8, amended.  For a slot in 0..7 and a pattern of eight bytes, with the
    cursor on the grid, [alcd_customChar] makes exactly seventeen transfers
    (thirty-four enable pulses): for each [i] in 0..7 the command byte
    [0x40 + slot * 8 + i] followed by [pattern[i]] as data, and then one
    command, the DDRAM address [(row == 0 ? 0x80 : 0xC0) + column] of the
    stored cursor, sent by the closing [alcd_gotoxy].  The globals, and so the
    stored column and row, are after the call what they were before it. *)
Theorem alcd_customChar_spec (slot : Z) (pattern : list Z) (g : Globals) :
  0 <= slot < 8 ->
  length pattern = 8%nat ->
  Forall is_u8 pattern ->
  cursor_in_range g ->
  let t := trace_of (alcd_customChar slot pattern) g in
  let address :=
    (if __alcd_y_position g =? 0 then 0x80 else 0xC0) + __alcd_x_position g in
  transfers t = glyph_transfers slot pattern ++ [(__alcd_writeCmd, address)]
  /\ length (transfers t) = 17%nat
  /\ count_writes is_EN true t = (2 * 17)%nat
  /\ globals_after (alcd_customChar slot pattern) g = g.
Proof.
  intros Hs Hl Hp [Hx Hy] t address.
  unfold __alcd_max_x, __alcd_max_y in Hx, Hy.
  pose proof (alcd_customChar_run slot pattern g) as R. cbv zeta in R.
  rewrite (u8_small (__alcd_x_position g)) in R by (unfold is_u8; lia).
  rewrite (u8_small (__alcd_y_position g)) in R by (unfold is_u8; lia).
  unfold clamp, __alcd_max_x, __alcd_max_y in R.
  destruct (Z.geb_spec (__alcd_x_position g) 16) as [C | _]; [lia | ].
  destruct (Z.geb_spec (__alcd_y_position g) 2) as [C | _]; [lia | ].
  cbn [orb] in R.
  assert (transfers t = glyph_transfers slot pattern ++ [(__alcd_writeCmd, address)])
    as T.
  { unfold t, trace_of. rewrite R. cbn [snd].
    destruct pattern as [| p0 [| p1 [| p2 [| p3 [| p4 [| p5 [| p6 [| p7 [| ? ?]]]]]]]]];
      try discriminate Hl.
    repeat match goal with
           | H : Forall _ (_ :: _) |- _ =>
               let a := fresh "P" in
               let b := fresh "F" in
               apply Forall_cons_iff in H; destruct H as [a b]
           end.
    rewrite (u8_small slot) by (unfold is_u8; lia).
    rewrite Z.shiftl_mul_pow2 by lia. change (2 ^ 3) with 8.
    unfold __alcd_CGRAM_Start, __alcd_Line1_Start, __alcd_Line2_Start.
    fold address.
    assert (is_u8 address) as Ha
        by (unfold is_u8, address; destruct (__alcd_y_position g =? 0); lia).
    u8_drop.
    rewrite transfers_loop_trace_8 by (assumption || lia).
    cbn [app]. rewrite !transfers_store.
    rewrite transfers_frame_end by exact Ha.
    unfold glyph_transfers. cbn [flat_map seq nth app Z.of_nat Pos.of_succ_nat Pos.succ].
    unfold __alcd_writeCmd, __alcd_writeData.
    repeat (f_equal; try lia). }
  split; [exact T | split; [ | split]].
  - rewrite T. rewrite length_app. reflexivity.
  - unfold t, trace_of. rewrite R. cbn [snd].
    rewrite count_EN_loop_trace. reflexivity.
  - unfold globals_after. rewrite R. destruct g; reflexivity.
Qed.

Lemma alcd_customChar_spec_witness :
  length (transfers
            (trace_of (alcd_customChar 3 [0x04; 0x0E; 0x0E; 0x0E; 0x1F; 0x00; 0x04; 0x00])
               startup)) = 17%nat
  /\ globals_after (alcd_customChar 3 [0x04; 0x0E; 0x0E; 0x0E; 0x1F; 0x00; 0x04; 0x00])
       startup = startup.
Proof.
  assert (0 <= 3 < 8) as Hs by lia.
  assert (Forall is_u8 [0x04; 0x0E; 0x0E; 0x0E; 0x1F; 0x00; 0x04; 0x00]) as Hp
      by (repeat constructor; unfold is_u8; lia).
  assert (cursor_in_range startup) as Hg
      by (unfold cursor_in_range, __alcd_max_x, __alcd_max_y; cbn; lia).
  destruct (alcd_customChar_spec 3 [0x04; 0x0E; 0x0E; 0x0E; 0x1F; 0x00; 0x04; 0x00]
              startup Hs eq_refl Hp Hg) as (_ & L & _ & G).
  split; assumption.
Defined.

(** ** Display mode and initialisation *)

(** C9.  [alcd_display] sends a single byte, as a command: 0x08 with bit 0
    set exactly when blink is on, bit 1 exactly when the cursor is on and
    bit 2 exactly when the display is on.  Display on alone gives 0x0C; all
    three on give 0x0F. *)
Theorem alcd_display_spec (displayOn cursorOn blinkOn : bool) (g : Globals) :
  let v := 8 + 4 * Z.b2z displayOn + 2 * Z.b2z cursorOn + Z.b2z blinkOn in
  trace_of (alcd_display displayOn cursorOn blinkOn) g
  = frame (pulse_delay (__alcd_initStatus g)) __alcd_writeCmd v
  /\ transfers (trace_of (alcd_display displayOn cursorOn blinkOn) g)
     = [(__alcd_writeCmd, v)]
  /\ Z.testbit v 0 = blinkOn
  /\ Z.testbit v 1 = cursorOn
  /\ Z.testbit v 2 = displayOn
  /\ Z.shiftr v 3 = Z.shiftr 0x08 3
  /\ transfers (trace_of (alcd_display true false false) g) = [(__alcd_writeCmd, 0x0C)]
  /\ transfers (trace_of (alcd_display true true true) g) = [(__alcd_writeCmd, 0x0F)]
  /\ globals_after (alcd_display displayOn cursorOn blinkOn) g = g.
Proof.
  intros v. unfold trace_of, globals_after. rewrite !alcd_display_run.
  cbn [fst snd]. fold v.
  assert (is_u8 v) as Hv
      by (unfold is_u8, v; destruct displayOn, cursorOn, blinkOn; cbn; lia).
  rewrite (transfers_frame_end _ _ v Hv).
  unfold v. destruct displayOn, cursorOn, blinkOn; repeat split.
Qed.

(** C10.  [alcd_init] leaves the stored column and row as they were.  It
    sends the clear-display command 0x01, which homes the cursor of the
    display, but stores nothing to the two position variables; so after
    output and a second initialisation the stored position can differ from
    (0,0), here (1,0), whereas [alcd_clear] always stores (0,0). *)
Theorem alcd_init_keeps_cursor (BL_defined : bool) (g : Globals) :
  cursor (globals_after (alcd_init BL_defined) g) = cursor g
  /\ existsb is_position_store (trace_of (alcd_init BL_defined) g) = false
  /\ In (__alcd_writeCmd, 0x01) (transfers (trace_of (alcd_init BL_defined) g))
  /\ cursor (globals_after
               (do_calls BL_defined [Call_init; Call_putc 0x41; Call_init]) startup)
     = (1, 0)
  /\ cursor (globals_after alcd_clear g) = (0, 0)
  /\ existsb is_position_store (trace_of alcd_clear g) = true.
Proof.
  unfold trace_of, globals_after.
  rewrite alcd_init_run, alcd_clear_run. cbn [fst snd].
  destruct BL_defined; repeat split; try reflexivity;
    cbn; intuition congruence.
Qed.

(** * Further properties of the driver *)

(** ** Frames compose *)

Lemma count_writes_app (p : Pin -> bool) (h : bool) (t1 t2 : list Event) :
  count_writes p h (t1 ++ t2) = (count_writes p h t1 + count_writes p h t2)%nat.
Proof. unfold count_writes. rewrite filter_app, length_app. reflexivity. Qed.

Lemma total_delay_app (t1 t2 : list Event) :
  total_delay (t1 ++ t2) = total_delay t1 + total_delay t2.
Proof.
  induction t1 as [| e t1 IH]; [reflexivity | ].
  destruct e; cbn [app total_delay]; rewrite IH; lia.
Qed.

Lemma total_delay_frame (d : Z) (rs : bool) (b : Z) :
  total_delay (frame d rs b) = 2 * d.
Proof.
  unfold frame, nibble_lines, en_pulse. cbn [app total_delay]. lia.
Qed.

Create HintDb sync.

Lemma in_sync_ret {A} (a : A) : in_sync (ret a).
Proof. intros g. repeat split. Qed.

Lemma in_sync_bind {A B} (m : M A) (k : A -> M B) :
  in_sync m -> (forall a, in_sync (k a)) -> in_sync (bind m k).
Proof.
  intros Hm Hk g.
  destruct (Hm g) as (M1 & M2 & M3).
  destruct (Hk (fst (fst (m g))) (globals_after m g)) as (K1 & K2 & K3).
  rewrite trace_of_bind.
  assert (transfers (trace_of m g ++ trace_of (k (fst (fst (m g)))) (globals_after m g))
          = transfers (trace_of m g)
              ++ transfers (trace_of (k (fst (fst (m g)))) (globals_after m g))) as E
      by apply M1.
  split; [ | split].
  - intros rest. rewrite <- app_assoc, M1, K1, E, app_assoc. reflexivity.
  - rewrite count_writes_app, E, length_app, M2, K2. lia.
  - rewrite count_writes_app, E, length_app, M3, K3. lia.
Qed.

Lemma in_sync_delay (d : Z) : in_sync (__alcd_delay d).
Proof. intros g. repeat split. Qed.

Lemma in_sync_backlight (v : Z) : in_sync (HAL_GPIO_WritePin __alcd_BL_Pin v).
Proof. intros g. repeat split. Qed.

Lemma in_sync_read_x : in_sync read_x_position.
Proof. intros g. repeat split. Qed.

Lemma in_sync_read_y : in_sync read_y_position.
Proof. intros g. repeat split. Qed.

Lemma in_sync_write_x (v : Z) : in_sync (write_x_position v).
Proof. intros g. repeat split. Qed.

Lemma in_sync_write_y (v : Z) : in_sync (write_y_position v).
Proof. intros g. repeat split. Qed.

Lemma in_sync_write_initStatus (b : bool) : in_sync (write_initStatus b).
Proof. intros g. repeat split. Qed.

Lemma in_sync_alcd_write (_data : Z) (rs : bool) : in_sync (alcd_write _data rs).
Proof.
  intros g. unfold trace_of. rewrite alcd_write_run. cbn [snd].
  rewrite (transfers_frame_end _ _ _ (u8_range _data)).
  split; [ | split; reflexivity].
  intros rest. apply transfers_frame, u8_range.
Qed.

#[local] Hint Resolve in_sync_ret in_sync_delay in_sync_backlight
  in_sync_read_x in_sync_read_y in_sync_write_x in_sync_write_y
  in_sync_write_initStatus in_sync_alcd_write : sync.

Ltac syncing :=
  repeat first
    [ progress cbv zeta
    | solve [ auto with sync ]
    | match goal with |- in_sync (if ?c then _ else _) => destruct c end
    | apply in_sync_bind; [ | intros ? ] ].

Lemma in_sync_alcd_gotoxy (_alcd_x _alcd_y : Z) : in_sync (alcd_gotoxy _alcd_x _alcd_y).
Proof. unfold alcd_gotoxy. syncing. Qed.

#[local] Hint Resolve in_sync_alcd_gotoxy : sync.

Lemma in_sync_alcd_putc (_char : Z) : in_sync (alcd_putc _char).
Proof. unfold alcd_putc. syncing. Qed.

#[local] Hint Resolve in_sync_alcd_putc : sync.

Lemma in_sync_alcd_puts (_str : list Z) : in_sync (alcd_puts _str).
Proof. induction _str as [| c rest IH]; cbn [alcd_puts]; syncing. Qed.

Lemma in_sync_customChar_loop (n : nat) :
  forall a data, in_sync (customChar_loop n a data).
Proof. induction n as [| n IH]; intros a data; cbn [customChar_loop]; syncing. Qed.

#[local] Hint Resolve in_sync_customChar_loop : sync.

Lemma in_sync_alcd_customChar (a : Z) (data : list Z) : in_sync (alcd_customChar a data).
Proof. unfold alcd_customChar. syncing. Qed.

Lemma in_sync_alcd_display (d c b : bool) : in_sync (alcd_display d c b).
Proof. unfold alcd_display. syncing. Qed.

Lemma in_sync_alcd_clear : in_sync alcd_clear.
Proof. unfold alcd_clear. syncing. Qed.

Lemma in_sync_alcd_init (BL_defined : bool) : in_sync (alcd_init BL_defined).
Proof. unfold alcd_init. syncing. Qed.

Lemma in_sync_alcd_backLight (b : bool) : in_sync (alcd_backLight b).
Proof. unfold alcd_backLight. syncing. Qed.

Lemma in_sync_do_call (BL_defined : bool) (c : Call) : in_sync (do_call BL_defined c).
Proof.
  destruct c; cbn [do_call];
    auto using in_sync_alcd_init, in_sync_alcd_gotoxy, in_sync_alcd_clear,
      in_sync_alcd_putc, in_sync_alcd_puts, in_sync_alcd_customChar,
      in_sync_alcd_display.
Qed.

Lemma in_sync_do_calls (BL_defined : bool) (cs : list Call) :
  in_sync (do_calls BL_defined cs).
Proof.
  induction cs as [| c cs IH]; cbn [do_calls].
  - apply in_sync_ret.
  - apply in_sync_bind; [apply in_sync_do_call | intros _; exact IH].
Qed.

(** ** Programs, call after call *)

Lemma globals_after_do_calls_app (BL_defined : bool) (cs1 cs2 : list Call) :
  forall g,
    globals_after (do_calls BL_defined (cs1 ++ cs2)) g
    = globals_after (do_calls BL_defined cs2)
        (globals_after (do_calls BL_defined cs1) g).
Proof.
  induction cs1 as [| c cs1 IH]; intros g.
  - reflexivity.
  - cbn [app do_calls]. rewrite !globals_after_bind. apply IH.
Qed.

Lemma trace_of_do_calls_app (BL_defined : bool) (cs1 cs2 : list Call) :
  forall g,
    trace_of (do_calls BL_defined (cs1 ++ cs2)) g
    = trace_of (do_calls BL_defined cs1) g
        ++ trace_of (do_calls BL_defined cs2)
             (globals_after (do_calls BL_defined cs1) g).
Proof.
  induction cs1 as [| c cs1 IH]; intros g.
  - reflexivity.
  - cbn [app do_calls]. rewrite !trace_of_bind, !globals_after_bind, IH.
    rewrite app_assoc. reflexivity.
Qed.

(** X6.  The 4-bit bus never loses nibble synchronisation.  In every program
    of public calls, from every state, EN is raised exactly twice and lowered
    exactly twice for each byte the display receives, and what the display
    receives from a program is what it receives from its first part followed
    by what it receives from the rest. *)
Theorem nibble_sync (BL_defined : bool) (cs1 cs2 : list Call) (g : Globals) :
  let t := trace_of (do_calls BL_defined (cs1 ++ cs2)) g in
  count_writes is_EN true t = (2 * length (transfers t))%nat
  /\ count_writes is_EN false t = (2 * length (transfers t))%nat
  /\ transfers t
     = transfers (trace_of (do_calls BL_defined cs1) g)
         ++ transfers (trace_of (do_calls BL_defined cs2)
                         (globals_after (do_calls BL_defined cs1) g)).
Proof.
  intros t.
  destruct (in_sync_do_calls BL_defined (cs1 ++ cs2) g) as (_ & U & D).
  split; [exact U | split; [exact D | ]].
  unfold t. rewrite trace_of_do_calls_app.
  apply (in_sync_do_calls BL_defined cs1 g).
Qed.

(** X9.  Switching the backlight is invisible to the display protocol.
    [alcd_backLight] writes the backlight line, once, with the level asked
    for, and nothing else; called between any two parts of a program it
    changes neither the bytes the display receives, nor the final globals,
    nor the timing of the enable pulses. *)
Theorem backLight_transparent
  (BL_defined : bool) (cs1 cs2 : list Call) (level : bool) (g : Globals) :
  let m := do_calls BL_defined cs1 ;; alcd_backLight level ;; do_calls BL_defined cs2 in
  trace_of (alcd_backLight level) g = [GpioWrite __alcd_BL_Pin level]
  /\ transfers (trace_of m g)
     = transfers (trace_of (do_calls BL_defined (cs1 ++ cs2)) g)
  /\ globals_after m g = globals_after (do_calls BL_defined (cs1 ++ cs2)) g
  /\ pulses_held (__alcd_initStatus g) (trace_of m g) = true.
Proof.
  intros m. unfold m.
  split; [destruct level; reflexivity | split; [ | split]].
  - rewrite trace_of_do_calls_app, !trace_of_bind.
    destruct (in_sync_do_calls BL_defined cs1 g) as (A1 & _).
    rewrite !A1. f_equal.
  - rewrite globals_after_do_calls_app, !globals_after_bind. reflexivity.
  - assert (well_timed (do_calls BL_defined cs1 ;; alcd_backLight level ;;
                        do_calls BL_defined cs2)) as W.
    { apply well_timed_bind; [apply well_timed_do_calls | intros _].
      apply well_timed_bind; [apply well_timed_backlight | intros _].
      apply well_timed_do_calls. }
    pose proof (W g []) as H. rewrite app_nil_r in H. exact H.
Qed.

(** ** The init flag *)

Lemma alcd_putc_initStatus (_char : Z) (g : Globals) :
  __alcd_initStatus (globals_after (alcd_putc _char) g) = __alcd_initStatus g.
Proof.
  unfold globals_after. rewrite alcd_putc_run.
  destruct (u8 (__alcd_x_position g + 1) >=? __alcd_max_x); cbn [fst snd].
  - pose proof (alcd_gotoxy_run 0 (u8 (__alcd_y_position g + 1))
                  {| __alcd_initStatus := __alcd_initStatus g;
                     __alcd_x_position := 0;
                     __alcd_y_position := u8 (__alcd_y_position g + 1) |}) as R.
    destruct (clamp _ _) as [x y]. unfold globals_after. rewrite R. reflexivity.
  - reflexivity.
Qed.

Lemma alcd_puts_initStatus (_str : list Z) :
  forall g,
    __alcd_initStatus (globals_after (alcd_puts _str) g) = __alcd_initStatus g.
Proof.
  induction _str as [| c rest IH]; intros g.
  - reflexivity.
  - cbn [alcd_puts]. destruct (negb (u8 c =? 0)); [ | reflexivity].
    rewrite globals_after_bind, IH. apply alcd_putc_initStatus.
Qed.

Lemma do_call_initStatus (BL_defined : bool) (c : Call) (g : Globals) :
  __alcd_initStatus (globals_after (do_call BL_defined c) g)
  = is_init_call c || __alcd_initStatus g.
Proof.
  destruct c; cbn [do_call is_init_call orb].
  - unfold globals_after. rewrite alcd_init_run. reflexivity.
  - pose proof (alcd_gotoxy_run _alcd_x _alcd_y g) as R.
    destruct (clamp _ _) as [x y]. unfold globals_after. rewrite R. reflexivity.
  - unfold globals_after. rewrite alcd_clear_run. reflexivity.
  - apply alcd_putc_initStatus.
  - apply alcd_puts_initStatus.
  - pose proof (alcd_customChar_run _alcd_CGRAMadd _alcd_CGRAMdata g) as R.
    cbv zeta in R. destruct (clamp _ _) as [x y].
    unfold globals_after. rewrite R. reflexivity.
  - unfold globals_after. rewrite alcd_display_run. reflexivity.
Qed.

(** X5.  Only [alcd_init] touches the init flag.  After a program the flag is
    set if the program called [alcd_init] and is otherwise what it was: a
    program that never initialises keeps the long 5000 microsecond pulses for
    ever, and once initialised the driver stays on the 50 microsecond
    pulses, whatever is called. *)
Theorem initStatus_after_program (BL_defined : bool) (cs : list Call) (g : Globals) :
  __alcd_initStatus (globals_after (do_calls BL_defined cs) g)
  = existsb is_init_call cs || __alcd_initStatus g.
Proof.
  revert g. induction cs as [| c cs IH]; intros g.
  - reflexivity.
  - cbn [do_calls existsb]. rewrite globals_after_bind, IH, do_call_initStatus.
    destruct (is_init_call c), (existsb is_init_call cs); reflexivity.
Qed.

(** X7.  [alcd_gotoxy] keeps the display and the driver in agreement,
    whatever it is given.  For all arguments and from every state, it sends
    exactly one byte, a command, which is the DDRAM address
    [0x80 + 0x40 * row + column] of the position it has just stored; that
    position lies on the grid and is either the one asked for or (0,0). *)
Theorem alcd_gotoxy_address (_alcd_x _alcd_y : Z) (g : Globals) :
  let g' := globals_after (alcd_gotoxy _alcd_x _alcd_y) g in
  transfers (trace_of (alcd_gotoxy _alcd_x _alcd_y) g)
  = [(__alcd_writeCmd, 0x80 + 0x40 * __alcd_y_position g' + __alcd_x_position g')]
  /\ cursor_in_range g'
  /\ (cursor g' = (u8 _alcd_x, u8 _alcd_y) \/ cursor g' = (0, 0)).
Proof.
  intros g'. unfold g'.
  pose proof (alcd_gotoxy_in_range _alcd_x _alcd_y g) as In.
  pose proof (alcd_gotoxy_run _alcd_x _alcd_y g) as R.
  unfold clamp in R.
  split; [ | split; [exact In | ]].
  - destruct In as [Hx Hy]. unfold __alcd_max_x, __alcd_max_y in Hx, Hy.
    revert Hx Hy. unfold globals_after, trace_of.
    destruct ((u8 _alcd_x >=? __alcd_max_x) || (u8 _alcd_y >=? __alcd_max_y));
      rewrite R; cbn [fst snd __alcd_x_position __alcd_y_position]; intros Hx Hy.
    + reflexivity.
    + cbn [app]. rewrite !transfers_store.
      rewrite transfers_frame_end by apply u8_range.
      do 2 f_equal. unfold __alcd_Line1_Start, __alcd_Line2_Start.
      rewrite u8_small by (unfold is_u8; destruct (u8 _alcd_y =? 0); lia).
      destruct (Z.eqb_spec (u8 _alcd_y) 0); lia.
  - unfold globals_after, cursor.
    destruct ((u8 _alcd_x >=? __alcd_max_x) || (u8 _alcd_y >=? __alcd_max_y));
      rewrite R; cbn [fst snd __alcd_x_position __alcd_y_position]; auto.
Qed.

(** ** Strings *)

Lemma no_NUL_head (c : Z) (s : list Z) :
  no_NUL (c :: s) -> negb (u8 c =? 0) = true /\ no_NUL s.
Proof.
  intros H. apply Forall_cons_iff in H. destruct H as [Hc Hs].
  split; [ | exact Hs]. destruct (Z.eqb_spec (u8 c) 0); [contradiction | reflexivity].
Qed.

(** X1.  [alcd_puts] prints exactly the characters before the first ['\0'].
    For a string [s] without ['\0'], what follows the terminator is never
    looked at, and the call is, event for event and in its effect on the
    globals, the sequence of [alcd_putc] on the characters of [s] in order;
    in particular the empty string does nothing. *)
Theorem alcd_puts_spec (BL_defined : bool) (s rest : list Z) (g : Globals) :
  no_NUL s ->
  alcd_puts (s ++ 0 :: rest) g = alcd_puts s g
  /\ alcd_puts s g = do_calls BL_defined (map Call_putc s) g.
Proof.
  revert g. induction s as [| c s IH]; intros g H.
  - split; reflexivity.
  - apply no_NUL_head in H. destruct H as [Hc Hs].
    cbn [app alcd_puts map do_calls do_call]. rewrite Hc.
    unfold bind. destruct (alcd_putc c g) as [[u g1] t1].
    destruct (IH g1 Hs) as [E1 E2]. rewrite E1, E2. split; reflexivity.
Qed.

Lemma alcd_puts_spec_witness :
  alcd_puts [72; 105; 0; 33; 33] startup
  = do_calls false [Call_putc 72; Call_putc 105] startup.
Proof.
  assert (no_NUL [72; 105]) as H
      by (repeat constructor; unfold u8; cbn; lia).
  destruct (alcd_puts_spec false [72; 105] [33; 33] startup H) as [E1 E2].
  cbn [app] in E1. rewrite E1. exact E2.
Defined.

Lemma alcd_putc_transfers (_char : Z) (g : Globals) :
  cursor_in_range g ->
  transfers (trace_of (alcd_putc _char) g)
  = (__alcd_writeData, u8 _char)
      :: (if __alcd_x_position g <? 15 then []
          else [(__alcd_writeCmd, if __alcd_y_position g =? 0 then 0xC0 else 0x80)]).
Proof.
  unfold cursor_in_range, __alcd_max_x, __alcd_max_y. intros [Hx Hy].
  unfold trace_of at 1. rewrite alcd_putc_run.
  assert (u8 (__alcd_x_position g + 1) = __alcd_x_position g + 1) as Ex
      by (apply u8_small; unfold is_u8; lia).
  assert (u8 (__alcd_y_position g + 1) = __alcd_y_position g + 1) as Ey
      by (apply u8_small; unfold is_u8; lia).
  rewrite Ex, Ey. unfold __alcd_max_x.
  destruct (Z.ltb_spec (__alcd_x_position g) 15) as [L | L].
  - destruct (Z.geb_spec (__alcd_x_position g + 1) 16) as [G | G]; [lia | ].
    cbn [snd]. rewrite transfers_frame by apply u8_range. reflexivity.
  - destruct (Z.geb_spec (__alcd_x_position g + 1) 16) as [G | G]; [ | lia].
    cbn [snd]. rewrite transfers_frame by apply u8_range.
    cbn [app]. rewrite !transfers_store. f_equal.
    pose proof (alcd_gotoxy_run 0 (__alcd_y_position g + 1)
                  {| __alcd_initStatus := __alcd_initStatus g;
                     __alcd_x_position := 0;
                     __alcd_y_position := __alcd_y_position g + 1 |}) as R.
    rewrite Ey in R. change (u8 0) with 0 in R.
    unfold clamp, __alcd_max_x, __alcd_max_y in R. cbn [orb Z.geb Z.compare] in R.
    unfold trace_of.
    destruct (Z.eqb_spec (__alcd_y_position g) 0) as [Y0 | Y0].
    + rewrite Y0 in *. change (0 + 1) with 1 in *. cbn in R.
      rewrite R. reflexivity.
    + assert (__alcd_y_position g = 1) as Y1 by lia.
      rewrite Y1 in *. change (1 + 1) with 2 in *. cbn in R.
      rewrite R. reflexivity.
Qed.

Lemma alcd_puts_transfers (s : list Z) :
  forall g,
    no_NUL s -> cursor_in_range g ->
    transfers (trace_of (alcd_puts s) g) = string_transfers (cursor g) s.
Proof.
  induction s as [| c s IH]; intros g H In.
  - reflexivity.
  - apply no_NUL_head in H. destruct H as [Hc Hs].
    cbn [alcd_puts string_transfers]. rewrite Hc.
    rewrite trace_of_bind.
    destruct (in_sync_alcd_putc c g) as (A & _). rewrite A.
    rewrite alcd_putc_transfers by exact In.
    rewrite IH by (exact Hs || apply alcd_putc_in_range, In).
    rewrite alcd_putc_cursor by exact In.
    reflexivity.
Qed.

Lemma advance_in_range (p : Z * Z) :
  0 <= fst p < 16 -> 0 <= snd p < 2 ->
  0 <= fst (advance p) < 16 /\ 0 <= snd (advance p) < 2.
Proof.
  destruct p as [x y]. cbn [fst snd advance]. intros Hx Hy.
  destruct (Z.ltb_spec x 15); [cbn [fst snd]; lia | ].
  destruct (Z.eqb_spec y 0); cbn [fst snd]; lia.
Qed.

Lemma string_transfers_data (s : list Z) :
  forall p, map snd (filter (fun x => fst x) (string_transfers p s)) = map u8 s.
Proof.
  induction s as [| c s IH]; intros p; [reflexivity | ].
  cbn [string_transfers]. destruct (fst p <? 15);
    cbn [filter fst snd app map __alcd_writeData __alcd_writeCmd negb];
    rewrite IH; reflexivity.
Qed.

Lemma string_transfers_commands (s : list Z) :
  forall p,
    0 <= fst p < 16 -> 0 <= snd p < 2 ->
    let cmds := map snd (filter (fun x => negb (fst x)) (string_transfers p s)) in
    Z.of_nat (length cmds) = (fst p + Z.of_nat (length s)) / 16
    /\ Forall (fun a => a = 0x80 \/ a = 0xC0) cmds.
Proof.
  induction s as [| c s IH]; intros p Hx Hy cmds; unfold cmds.
  - cbn. split; [ | constructor].
    rewrite Z.add_0_r. symmetry. apply Z.div_small. lia.
  - destruct (advance_in_range p Hx Hy) as [Ax Ay].
    destruct (IH (advance p) Ax Ay) as [L F]. clear IH.
    cbn [string_transfers length]. rewrite Nat2Z.inj_succ.
    destruct p as [x y]. cbn [fst snd advance] in *.
    destruct (Z.ltb_spec x 15) as [C | C].
    + cbn [filter fst snd app map __alcd_writeData __alcd_writeCmd negb] in *.
      split; [ | exact F]. rewrite L.
      f_equal. lia.
    + assert (x = 15) as X by lia. subst x.
      cbn [filter fst snd app map length __alcd_writeData __alcd_writeCmd negb].
      rewrite Nat2Z.inj_succ.
      replace (fst (if y =? 0 then (0, 1) else (0, 0))) with 0 in L
          by (destruct (y =? 0); reflexivity).
      split.
      * rewrite L.
        replace (15 + Z.succ (Z.of_nat (length s)))
          with (Z.of_nat (length s) + 1 * 16) by lia.
        rewrite Z.div_add by lia. cbn [Z.add]. lia.
      * constructor; [destruct (y =? 0); auto | exact F].
Qed.

(** X2.  [alcd_puts] loses no character and sends nothing unexpected.  For
    a string [s] without ['\0'] and a cursor on the grid at column [x], the
    data bytes the display receives are the characters of [s], in order; the
    command bytes in between are line addresses, 0x80 or 0xC0, one for each
    time the end of a line is passed, [(x + length s) / 16] in all. *)
Theorem alcd_puts_bytes (s : list Z) (g : Globals) :
  no_NUL s -> cursor_in_range g ->
  let t := trace_of (alcd_puts s) g in
  data_bytes t = map u8 s
  /\ Z.of_nat (length (command_bytes t))
     = (__alcd_x_position g + Z.of_nat (length s)) / 16
  /\ Forall (fun a => a = 0x80 \/ a = 0xC0) (command_bytes t).
Proof.
  intros H In t. unfold t, data_bytes, command_bytes.
  rewrite alcd_puts_transfers by assumption.
  split; [apply string_transfers_data | ].
  destruct In as [Hx Hy]. unfold __alcd_max_x, __alcd_max_y in Hx, Hy.
  apply (string_transfers_commands s (cursor g)); assumption.
Qed.

Lemma alcd_puts_bytes_witness :
  let t := trace_of (alcd_puts [72; 101; 108; 108; 111])
             {| __alcd_initStatus := true;
                __alcd_x_position := 13;
                __alcd_y_position := 0 |} in
  data_bytes t = [72; 101; 108; 108; 111]
  /\ Z.of_nat (length (command_bytes t)) = 1.
Proof.
  assert (no_NUL [72; 101; 108; 108; 111]) as H
      by (repeat constructor; unfold u8; cbn; lia).
  assert (cursor_in_range {| __alcd_initStatus := true;
                             __alcd_x_position := 13;
                             __alcd_y_position := 0 |}) as In
      by (unfold cursor_in_range, __alcd_max_x, __alcd_max_y; cbn; lia).
  destruct (alcd_puts_bytes [72; 101; 108; 108; 111] _ H In) as (D & C & _).
  split; [exact D | exact C].
Defined.

Lemma alcd_puts_cursor_iter (s : list Z) :
  forall g,
    no_NUL s -> cursor_in_range g ->
    cursor (globals_after (alcd_puts s) g) = Nat.iter (length s) advance (cursor g).
Proof.
  induction s as [| c s IH]; intros g H In.
  - reflexivity.
  - apply no_NUL_head in H. destruct H as [Hc Hs].
    cbn [alcd_puts length]. rewrite Hc. rewrite globals_after_bind.
    rewrite IH by (exact Hs || apply alcd_putc_in_range, In).
    rewrite alcd_putc_cursor by exact In.
    rewrite Nat.iter_succ_r. reflexivity.
Qed.

Lemma advance_cell (k : Z) :
  0 <= k < 32 -> advance (cell k) = cell ((k + 1) mod 32).
Proof.
  intros H. rewrite <- (Z2Nat.id k) by lia.
  assert (Z.to_nat k < 32)%nat as B by lia.
  revert B. generalize (Z.to_nat k) as n. intros n B.
  do 32 (destruct n as [| n]; [reflexivity | ]).
  lia.
Qed.

Lemma iter_advance_cell (n : nat) (k : Z) :
  0 <= k < 32 ->
  Nat.iter n advance (cell k) = cell ((k + Z.of_nat n) mod 32).
Proof.
  intros H. induction n as [| n IH].
  - change (Nat.iter 0 advance (cell k)) with (cell k).
    change (Z.of_nat 0) with 0. rewrite Z.add_0_r, Z.mod_small by lia. reflexivity.
  - rewrite Nat.iter_succ, IH.
    rewrite advance_cell by (apply Z.mod_pos_bound; lia).
    rewrite Z.add_mod_idemp_l by lia.
    f_equal. f_equal. lia.
Qed.

Lemma cursor_is_cell (g : Globals) :
  cursor_in_range g ->
  cursor g = cell (cell_index g) /\ 0 <= cell_index g < 32.
Proof.
  unfold cursor_in_range, __alcd_max_x, __alcd_max_y, cursor, cell, cell_index.
  intros [Hx Hy]. split; [ | lia].
  f_equal.
  - apply Z.mod_unique with (q := __alcd_y_position g); lia.
  - apply Z.div_unique with (r := __alcd_x_position g); lia.
Qed.

(** X3.  Text runs through the 32 cells of the display cyclically.  Numbering
    the cells in reading order (cell [16 * row + column]), a string of [n]
    characters without ['\0'] printed from cell [k] leaves the cursor on cell
    [(k + n) mod 32]: after the last cell of row 1 the cursor is back on the
    first cell of row 0, and 32 characters bring it back where it was. *)
Theorem alcd_puts_cursor (s : list Z) (g : Globals) :
  no_NUL s -> cursor_in_range g ->
  cursor (globals_after (alcd_puts s) g)
  = cell ((cell_index g + Z.of_nat (length s)) mod 32)
  /\ (length s = 32%nat -> cursor (globals_after (alcd_puts s) g) = cursor g).
Proof.
  intros H In.
  destruct (cursor_is_cell g In) as [C B].
  assert (cursor (globals_after (alcd_puts s) g)
          = cell ((cell_index g + Z.of_nat (length s)) mod 32)) as E.
  { rewrite alcd_puts_cursor_iter by assumption.
    rewrite C. apply iter_advance_cell, B. }
  split; [exact E | ].
  intros L. rewrite E, L, C. f_equal.
  change (Z.of_nat 32) with (1 * 32).
  rewrite Z.mod_add by lia. apply Z.mod_small, B.
Qed.

Lemma alcd_puts_cursor_witness :
  cursor (globals_after (alcd_puts [72; 101; 108; 108; 111])
            {| __alcd_initStatus := true;
               __alcd_x_position := 13;
               __alcd_y_position := 1 |}) = (2, 0).
Proof.
  assert (no_NUL [72; 101; 108; 108; 111]) as H
      by (repeat constructor; unfold u8; cbn; lia).
  assert (cursor_in_range {| __alcd_initStatus := true;
                             __alcd_x_position := 13;
                             __alcd_y_position := 1 |}) as In
      by (unfold cursor_in_range, __alcd_max_x, __alcd_max_y; cbn; lia).
  destruct (alcd_puts_cursor [72; 101; 108; 108; 111] _ H In) as [E _].
  exact E.
Defined.

(** ** Glyph slots beyond 7 *)

Lemma CG_base_value (slot : Z) :
  CG_base slot = (0x40 + 8 * slot) mod 256
  /\ 0 <= CG_base slot
  /\ CG_base slot + 7 < 256
  /\ (0x40 <= CG_base slot /\ CG_base slot + 7 <= 0x7F <-> slot mod 32 < 8).
Proof.
  unfold CG_base, __alcd_CGRAM_Start, u8.
  rewrite Z.shiftl_mul_pow2 by lia. change (2 ^ 3) with 8.
  pose proof (Z.mod_pos_bound slot 32) as B32.
  repeat split; intros; Z.div_mod_to_equations; lia.
Qed.

(** X4.  [alcd_customChar] does not check the slot.  For any slot value and
    a pattern of eight bytes, with the cursor on the grid, the eight
    address commands start at [(0x40 + 8 * slot) mod 256] and count up
    without wrapping, each followed by its pattern byte, and the DDRAM
    address of the cursor closes the call.  The addresses are CGRAM
    addresses (0x40..0x7F) exactly when [slot mod 32 < 8]; any other slot
    sends eight commands of another kind to the display.  The slot counts
    modulo 32. *)
Theorem alcd_customChar_any_slot (slot : Z) (pattern : list Z) (g : Globals) :
  length pattern = 8%nat ->
  Forall is_u8 pattern ->
  cursor_in_range g ->
  let t := trace_of (alcd_customChar slot pattern) g in
  let address :=
    (if __alcd_y_position g =? 0 then 0x80 else 0xC0) + __alcd_x_position g in
  transfers t
  = glyph_transfers_at (CG_base slot) pattern ++ [(__alcd_writeCmd, address)]
  /\ CG_base slot = (0x40 + 8 * slot) mod 256
  /\ (0x40 <= CG_base slot /\ CG_base slot + 7 <= 0x7F <-> slot mod 32 < 8)
  /\ alcd_customChar (slot + 32) pattern g = alcd_customChar slot pattern g.
Proof.
  intros Hl Hp [Hx Hy] t address.
  unfold __alcd_max_x, __alcd_max_y in Hx, Hy.
  destruct (CG_base_value slot) as (V & B0 & B7 & R).
  split; [ | split; [exact V | split; [exact R | ]]].
  - unfold t, trace_of.
    pose proof (alcd_customChar_run slot pattern g) as E. cbv zeta in E.
    rewrite (u8_small (__alcd_x_position g)) in E by (unfold is_u8; lia).
    rewrite (u8_small (__alcd_y_position g)) in E by (unfold is_u8; lia).
    unfold clamp, __alcd_max_x, __alcd_max_y in E.
    destruct (Z.geb_spec (__alcd_x_position g) 16) as [C | _]; [lia | ].
    destruct (Z.geb_spec (__alcd_y_position g) 2) as [C | _]; [lia | ].
    cbn [orb] in E. rewrite E. cbn [snd]. fold (CG_base slot).
    destruct pattern as [| p0 [| p1 [| p2 [| p3 [| p4 [| p5 [| p6 [| p7 [| ? ?]]]]]]]]];
      try discriminate Hl.
    repeat match goal with
           | H : Forall _ (_ :: _) |- _ =>
               let a := fresh "P" in
               let b := fresh "F" in
               apply Forall_cons_iff in H; destruct H as [a b]
           end.
    unfold __alcd_Line1_Start, __alcd_Line2_Start. fold address.
    assert (is_u8 address) as Ha
        by (unfold is_u8, address; destruct (__alcd_y_position g =? 0); lia).
    rewrite (u8_small address Ha).
    rewrite transfers_loop_trace_8 by (assumption || lia).
    cbn [app]. rewrite !transfers_store.
    rewrite transfers_frame_end by exact Ha.
    unfold glyph_transfers_at.
    cbn [flat_map seq nth app Z.of_nat Pos.of_succ_nat Pos.succ].
    unfold __alcd_writeCmd, __alcd_writeData.
    repeat (f_equal; try lia).
  - unfold alcd_customChar. cbv zeta. fold (CG_base (slot + 32)) (CG_base slot).
    replace (CG_base (slot + 32)) with (CG_base slot); [reflexivity | ].
    destruct (CG_base_value (slot + 32)) as (V' & _).
    rewrite V, V'. Z.div_mod_to_equations; lia.
Qed.

Lemma alcd_customChar_any_slot_witness :
  command_bytes
    (trace_of (alcd_customChar 8 [0x04; 0x0E; 0x0E; 0x0E; 0x1F; 0x00; 0x04; 0x00])
       startup)
  = [0x80; 0x81; 0x82; 0x83; 0x84; 0x85; 0x86; 0x87; 0x80].
Proof.
  assert (Forall is_u8 [0x04; 0x0E; 0x0E; 0x0E; 0x1F; 0x00; 0x04; 0x00]) as Hp
      by (repeat constructor; unfold is_u8; lia).
  assert (cursor_in_range startup) as Hg
      by (unfold cursor_in_range, __alcd_max_x, __alcd_max_y; cbn; lia).
  destruct (alcd_customChar_any_slot 8 [0x04; 0x0E; 0x0E; 0x0E; 0x1F; 0x00; 0x04; 0x00]
              startup eq_refl Hp Hg) as (T & _).
  unfold command_bytes. rewrite T. reflexivity.
Defined.

(** ** Time spent waiting *)

Lemma paced_ret {A} (a : A) : paced (ret a).
Proof.
  intros g. split; [reflexivity | ].
  change (0 = 2 * pulse_delay (__alcd_initStatus g) * 0). lia.
Qed.

Lemma paced_bind {A B} (m : M A) (k : A -> M B) :
  in_sync m -> paced m -> (forall a, paced (k a)) -> paced (bind m k).
Proof.
  intros S Hm Hk g.
  destruct (Hm g) as [I1 D1].
  destruct (Hk (fst (fst (m g))) (globals_after m g)) as [I2 D2].
  destruct (S g) as (A1 & _).
  rewrite globals_after_bind, trace_of_bind.
  split; [rewrite I2; exact I1 | ].
  rewrite total_delay_app, A1, length_app, D1, D2, I1. lia.
Qed.

Lemma paced_read_x : paced read_x_position.
Proof.
  intros g. split; [reflexivity | ].
  change (0 = 2 * pulse_delay (__alcd_initStatus g) * 0). lia.
Qed.

Lemma paced_read_y : paced read_y_position.
Proof.
  intros g. split; [reflexivity | ].
  change (0 = 2 * pulse_delay (__alcd_initStatus g) * 0). lia.
Qed.

Lemma paced_write_x (v : Z) : paced (write_x_position v).
Proof.
  intros g. split; [reflexivity | ].
  change (0 = 2 * pulse_delay (__alcd_initStatus g) * 0). lia.
Qed.

Lemma paced_write_y (v : Z) : paced (write_y_position v).
Proof.
  intros g. split; [reflexivity | ].
  change (0 = 2 * pulse_delay (__alcd_initStatus g) * 0). lia.
Qed.

Lemma paced_alcd_write (_data : Z) (rs : bool) : paced (alcd_write _data rs).
Proof.
  intros g. unfold trace_of, globals_after. rewrite alcd_write_run. cbn [fst snd].
  split; [reflexivity | ].
  rewrite total_delay_frame, (transfers_frame_end _ _ _ (u8_range _data)).
  cbn [length Z.of_nat Pos.of_succ_nat]. lia.
Qed.

Create HintDb pace.

#[local] Hint Resolve paced_ret paced_read_x paced_read_y paced_write_x
  paced_write_y paced_alcd_write : pace.

Ltac pacing :=
  repeat first
    [ progress cbv zeta
    | solve [ auto with pace ]
    | match goal with |- paced (if ?c then _ else _) => destruct c end
    | apply paced_bind; [ solve [ syncing ] | | intros ? ] ].

Lemma paced_alcd_gotoxy (_alcd_x _alcd_y : Z) : paced (alcd_gotoxy _alcd_x _alcd_y).
Proof. unfold alcd_gotoxy. pacing. Qed.

#[local] Hint Resolve paced_alcd_gotoxy : pace.

Lemma paced_alcd_putc (_char : Z) : paced (alcd_putc _char).
Proof. unfold alcd_putc. pacing. Qed.

#[local] Hint Resolve paced_alcd_putc : pace.

Lemma paced_alcd_puts (_str : list Z) : paced (alcd_puts _str).
Proof. induction _str as [| c rest IH]; cbn [alcd_puts]; pacing. Qed.

Lemma paced_customChar_loop (n : nat) :
  forall a data, paced (customChar_loop n a data).
Proof. induction n as [| n IH]; intros a data; cbn [customChar_loop]; pacing. Qed.

#[local] Hint Resolve paced_customChar_loop : pace.

Lemma paced_alcd_customChar (a : Z) (data : list Z) : paced (alcd_customChar a data).
Proof. unfold alcd_customChar. pacing. Qed.

Lemma paced_alcd_display (d c b : bool) : paced (alcd_display d c b).
Proof. unfold alcd_display. pacing. Qed.

